(** * eco-ponto backend: the collection-point views, embedded and verified

    A shallow embedding of [eco_map_backend/eco_points/views.py] (with the
    [User] model of [eco_map_backend/accounts/models.py]).  The views are
    Django REST framework class-based views; the database is threaded
    explicitly through a small state-and-exception monad, tables are finite
    maps from primary key to row, and each view is a function from the
    database and the request to the new database and the HTTP response. *)

From Stdlib Require Import ZArith String Ascii Lia.
From stdpp Require Import base option list gmap strings fin_maps.

Local Open Scope Z_scope.
Local Open Scope string_scope.

(** ** Data model *)

(** [accounts/models.py], class [User]: the columns the views read.  The
    primary key is the implicit auto field of the model. *)
Record User := {
  user_pk : Z;
  email : string;
  first_name : string;
  last_name : string;
  is_active : bool;
  is_staff : bool
}.

(** A value of a request body or of a model column. *)
Record UploadedFile := { file_name : string; file_size : Z }.

Inductive Value :=
| VNull
| VBool (b : bool)
| VInt (z : Z)
| VStr (s : string)
| VFile (f : UploadedFile).

(** A [QueryDict] (query string, multipart form) or a parsed JSON object:
    the pairs in the order received.  [get] returns the last value of a key,
    as [QueryDict.get] does (and as [json.loads] does for a repeated key). *)
Fixpoint QueryDict_get {V} (k : string) (d : list (string * V)) : option V :=
  match d with
  | [] => None
  | (k', v) :: d' =>
      match QueryDict_get k d' with
      | Some w => Some w
      | None => if String.eqb k k' then Some v else None
      end
  end.

Definition Dict := list (string * Value).

(** The descriptive columns of a row, by column name. *)
Abbreviation Fields := (gmap string Value).

(** The rows of the tables of [eco_points].  The key of a row is its primary
    key in the table; the foreign keys are stored as the id they hold. *)
Record CollectionPoint := {
  cp_user_id : Z;
  cp_is_active : bool;
  cp_status : string;
  cp_fields : Fields
}.

Record OperatingHour := {
  oh_collection_point_id : Z;
  oh_fields : Fields
}.

Record PointReview := {
  pr_user_id : Z;
  pr_collection_point_id : Z;
  pr_fields : Fields
}.

Record PointImage := {
  pi_collection_point_id : Z;
  pi_image : UploadedFile
}.

(** The literals of [status]. *)
Definition PENDING : string := "pending".
Definition APPROVED : string := "approved".
Definition REJECTED : string := "rejected".
Definition STATUS_CHOICES : list string := [PENDING; APPROVED; REJECTED].

(** The database: one finite map per table, and the sequence of each auto
    field (the next primary key the table hands out). *)
Record DB := {
  collection_points : gmap Z CollectionPoint;
  operating_hours : gmap Z OperatingHour;
  point_reviews : gmap Z PointReview;
  point_images : gmap Z PointImage;
  seq_collection_point : Z;
  seq_operating_hour : Z;
  seq_point_image : Z
}.

Definition empty_db : DB :=
  {| collection_points := ∅; operating_hours := ∅; point_reviews := ∅;
     point_images := ∅; seq_collection_point := 1; seq_operating_hour := 1;
     seq_point_image := 1 |}.

Definition set_collection_points (m : gmap Z CollectionPoint) (s : Z) (db : DB) : DB :=
  {| collection_points := m; operating_hours := operating_hours db;
     point_reviews := point_reviews db; point_images := point_images db;
     seq_collection_point := s; seq_operating_hour := seq_operating_hour db;
     seq_point_image := seq_point_image db |}.

Definition set_operating_hours (m : gmap Z OperatingHour) (s : Z) (db : DB) : DB :=
  {| collection_points := collection_points db; operating_hours := m;
     point_reviews := point_reviews db; point_images := point_images db;
     seq_collection_point := seq_collection_point db; seq_operating_hour := s;
     seq_point_image := seq_point_image db |}.

Definition set_point_images (m : gmap Z PointImage) (s : Z) (db : DB) : DB :=
  {| collection_points := collection_points db; operating_hours := operating_hours db;
     point_reviews := point_reviews db; point_images := m;
     seq_collection_point := seq_collection_point db;
     seq_operating_hour := seq_operating_hour db; seq_point_image := s |}.

(** ** Requests, exceptions and responses *)

(** What [request.data] is once the parsers of the view have run. *)
Inductive Data :=
| Unparsed (unsupported : bool)
    (* reading [request.data] raises: [UnsupportedMediaType] when no parser
       of the view takes the content type, [ParseError] otherwise *)
| NotMapping                      (* a JSON value that is not an object *)
| Mapping (d : Dict).

(** A request after [perform_authentication]: [user] is [None] for
    [AnonymousUser]; [authenticators] lists, for each authentication class of
    the view, whether it has a [WWW-Authenticate] header. *)
Record Request := {
  user : option User;
  authenticators : list bool;
  query_params : list (string * string);
  data : Data
}.

Inductive Exception :=
| ParseError
| UnsupportedMediaType
| ValidationError
| NotAuthenticated
| PermissionDenied
| Http404
| ValueError          (* not an API exception: the response is a 500 *)
| TypeError
| IntegrityError.

Inductive Payload :=
| Points (l : list (Z * CollectionPoint))
| Point (k : Z) (p : CollectionPoint)
| Hours (l : list (Z * OperatingHour))
| Hour (k : Z) (h : OperatingHour)
| Reviews (l : list (Z * PointReview))
| Image (k : Z) (i : PointImage)
| Error (e : Exception).

Record Response := { status_code : Z; payload : Payload }.

Definition HTTP_200_OK : Z := 200.
Definition HTTP_201_CREATED : Z := 201.

(** [APIView.get_authenticate_header]: the header of the first
    authenticator. *)
Definition get_authenticate_header (r : Request) : bool :=
  match authenticators r with
  | h :: _ => h
  | [] => false
  end.

(** [APIView.handle_exception] with the default exception handler: the status
    of each exception.  [NotAuthenticated] is a 401 only when there is a
    [WWW-Authenticate] header to send; [Http404] becomes [NotFound]; an
    exception that is not an API exception propagates and Django answers
    500. *)
Definition exception_status (r : Request) (e : Exception) : Z :=
  match e with
  | ParseError => 400
  | ValidationError => 400
  | NotAuthenticated => if get_authenticate_header r then 401 else 403
  | PermissionDenied => 403
  | Http404 => 404
  | UnsupportedMediaType => 415
  | ValueError | TypeError | IntegrityError => 500
  end.

Definition handle_exception (r : Request) (e : Exception) : Response :=
  {| status_code := exception_status r e; payload := Error e |}.

(** ** The monad of a view: database state and exceptions

    A raised exception keeps the database as it is at that point: nothing
    here rolls a write back. *)
Definition View (A : Type) : Type := DB → DB * (Exception + A).

Global Instance View_ret : MRet View := λ A a db, (db, inr a).
Global Instance View_bind : MBind View := λ A B f m db,
  match m db with
  | (db', inr a) => f a db'
  | (db', inl e) => (db', inl e)
  end.

Definition raise {A} (e : Exception) : View A := λ db, (db, inl e).
Definition get_db : View DB := λ db, (db, inr db).
Definition put_db (db' : DB) : View unit := λ _, (db', inr tt).

(** [APIView.dispatch]: run the handler and turn its result, or the
    exception it raised, into the response. *)
Definition respond (r : Request) (v : View Response) (db : DB) : DB * Response :=
  match v db with
  | (db', inr resp) => (db', resp)
  | (db', inl e) => (db', handle_exception r e)
  end.

(** ** Permissions (rest_framework.permissions) *)

(** [IsAuthenticated.has_permission]:
    [bool(request.user and request.user.is_authenticated)]. *)
Definition IsAuthenticated (r : Request) : bool :=
  match user r with
  | Some _ => true
  | None => false
  end.

(** [IsAdminUser.has_permission]:
    [bool(request.user and request.user.is_staff)]. *)
Definition IsAdminUser (r : Request) : bool :=
  match user r with
  | Some u => is_staff u
  | None => false
  end.

(** [APIView.permission_denied]: a request that no authenticator recognised
    is told to authenticate, any other is refused. *)
Definition permission_denied {A} (r : Request) : View A :=
  match authenticators r, user r with
  | _ :: _, None => raise NotAuthenticated
  | _, _ => raise PermissionDenied
  end.

(** [APIView.check_permissions] over [permission_classes]. *)
Fixpoint check_permissions (permission_classes : list (Request → bool))
    (r : Request) : View unit :=
  match permission_classes with
  | [] => mret tt
  | has_permission :: rest =>
      if has_permission r then check_permissions rest r
      else permission_denied r
  end.

(** [APIView.dispatch]: [initial] checks the permissions, then the handler
    runs; an exception of either becomes the response. *)
Definition dispatch (permission_classes : list (Request → bool)) (r : Request)
    (handler : View Response) : DB → DB * Response :=
  respond r (check_permissions permission_classes r ;; handler).

(** ** Serializers

    [serializers.py] is not among the sources.  What a serializer accepts
    for the columns of its model is left open: the class below takes the
    field validation of each serializer as given, and every theorem holds
    for all of them. *)
Class Serializers := {
  (** [CollectionPointSerializer]: the validated descriptive columns of a
      body; the flag is [partial] (a PATCH). *)
  CollectionPointSerializer_fields : DB → bool → Dict → option Fields;
  (** [OperatingHourSerializer]: the validated columns of a body, and the
      collection point the body names when the serializer keeps one. *)
  OperatingHourSerializer_fields : DB → Dict → option (option Z * Fields);
  (** [PointImageUploadSerializer]: [validated_data['image']]. *)
  PointImageUploadSerializer_image : DB → Dict → option UploadedFile
}.

(** [request.data]: the parsed body, or the exception of the parser. *)
Definition request_data (r : Request) : View Data :=
  match data r with
  | Unparsed true => raise UnsupportedMediaType
  | Unparsed false => raise ParseError
  | d => mret d
  end.

(** [Serializer.is_valid(raise_exception=True)]: [to_internal_value] refuses
    data that is not a mapping, then the fields are validated. *)
Definition is_valid {A} (fields : DB → Dict → option A) (d : Data) : View A :=
  match d with
  | Mapping m =>
      db ← get_db;
      match fields db m with
      | Some a => mret a
      | None => raise ValidationError
      end
  | _ => raise ValidationError
  end.

(** ** Managers and shortcuts *)

(** [get_object_or_404(CollectionPoint, pk=pk)]; [pk=None] matches no
    row. *)
Definition get_object_or_404 {A} (table : DB → gmap Z A) (pk : option Z) : View (Z * A) :=
  db ← get_db;
  match pk with
  | Some k =>
      match table db !! k with
      | Some row => mret (k, row)
      | None => raise Http404
      end
  | None => raise Http404
  end.

(** [CollectionPoint.objects.create]: the row gets the next primary key. *)
Definition CollectionPoint_objects_create (p : CollectionPoint) : View (Z * CollectionPoint) :=
  db ← get_db;
  let k := seq_collection_point db in
  put_db (set_collection_points (<[k := p]> (collection_points db)) (k + 1) db) ;;
  mret (k, p).

(** [instance.save()] of an existing collection point. *)
Definition CollectionPoint_save (k : Z) (p : CollectionPoint) : View unit :=
  db ← get_db;
  put_db (set_collection_points (<[k := p]> (collection_points db))
            (seq_collection_point db) db).

(** [OperatingHour.objects.create]: the foreign key is a constraint of the
    table, a row that names no collection point is refused. *)
Definition OperatingHour_objects_create (h : OperatingHour) : View (Z * OperatingHour) :=
  db ← get_db;
  match collection_points db !! oh_collection_point_id h with
  | None => raise IntegrityError
  | Some _ =>
      let k := seq_operating_hour db in
      put_db (set_operating_hours (<[k := h]> (operating_hours db)) (k + 1) db) ;;
      mret (k, h)
  end.

(** [PointImage.objects.create(collection_point=..., image=...)]. *)
Definition PointImage_objects_create (i : PointImage) : View (Z * PointImage) :=
  db ← get_db;
  match collection_points db !! pi_collection_point_id i with
  | None => raise IntegrityError
  | Some _ =>
      let k := seq_point_image db in
      put_db (set_point_images (<[k := i]> (point_images db)) (k + 1) db) ;;
      mret (k, i)
  end.

(** ** Query values

    A lookup on an integer column with a string runs [int(value)] on it. *)
Definition is_space (c : ascii) : bool :=
  let n := nat_of_ascii c in
  ((n =? 32) || ((9 <=? n) && (n <=? 13)) || ((28 <=? n) && (n <=? 31)))%nat.

Fixpoint lstrip (s : string) : string :=
  match s with
  | String c s' => if is_space c then lstrip s' else s
  | EmptyString => EmptyString
  end.

Fixpoint rstrip (s : string) : string :=
  match s with
  | String c s' =>
      match rstrip s' with
      | EmptyString => if is_space c then EmptyString else String c EmptyString
      | t => String c t
      end
  | EmptyString => EmptyString
  end.

Definition digit (c : ascii) : option Z :=
  let n := Z.of_nat (nat_of_ascii c) in
  if ((48 <=? n) && (n <=? 57))%Z then Some (n - 48) else None.

(** Decimal digits, with single underscores between digits. *)
Fixpoint digits (s : string) (acc : Z) (after_digit : bool) : option Z :=
  match s with
  | EmptyString => if after_digit then Some acc else None
  | String c s' =>
      match digit c with
      | Some d => digits s' (10 * acc + d) true
      | None =>
          if Ascii.eqb c "_"%char && after_digit then digits s' acc false else None
      end
  end.

(** [int(s)] for an ASCII string: [None] is [ValueError]. *)
Definition py_int (s : string) : option Z :=
  match rstrip (lstrip s) with
  | String "+"%char t => digits t 0 false
  | String "-"%char t => Z.opp <$> digits t 0 false
  | t => digits t 0 false
  end.

(** The truth value of [query_params.get(...)]: [None] and the empty string
    are false. *)
Definition truthy (v : option string) : bool :=
  match v with
  | Some (String _ _) => true
  | _ => false
  end.

(** [queryset.filter(column=value)] on an integer column, [value] a
    string of the query. *)
Definition filter_int {A} (column : A → Z) (value : string) (queryset : gmap Z A)
    : View (gmap Z A) :=
  match py_int value with
  | Some z => mret (filter (λ kr, column kr.2 = z) queryset)
  | None => raise ValueError
  end.

(** ** Serializers of the moderation fields *)

(** Modelled from the spec: [CollectionPointSerializer.create] is in
    [serializers.py], which is not among the sources.  The owner is the
    caller, and the moderation fields are set by the server, [is_active =
    false] and [status = pending], whatever the body holds for them. *)
Definition CollectionPointSerializer_create (r : Request) (fields : Fields)
    : View (Z * CollectionPoint) :=
  match user r with
  | Some u =>
      CollectionPoint_objects_create
        {| cp_user_id := user_pk u; cp_is_active := false;
           cp_status := PENDING; cp_fields := fields |}
  | None => raise TypeError
  end.

(** Modelled from the spec: [CollectionPointSerializer.update] is in
    [serializers.py], which is not among the sources.  An update writes the
    validated descriptive columns over those of the instance; the owner and
    the moderation fields are not writable through this serializer. *)
Definition CollectionPointSerializer_update (p : CollectionPoint) (fields : Fields)
    : CollectionPoint :=
  {| cp_user_id := cp_user_id p; cp_is_active := cp_is_active p;
     cp_status := cp_status p; cp_fields := fields ∪ cp_fields p |}.

(** Modelled from the spec: [PointStatusUpdateSerializer] is in
    [serializers.py], which is not among the sources.  The body gives
    [is_active] and/or [status]; a [status] outside the enumerated set is a
    validation error. *)
Definition PointStatusUpdateSerializer_fields (db : DB) (d : Dict)
    : option (option bool * option string) :=
  is_active ← match QueryDict_get "is_active" d with
              | None => Some None
              | Some (VBool b) => Some (Some b)
              | Some _ => None
              end;
  status ← match QueryDict_get "status" d with
           | None => Some None
           | Some (VStr s) =>
               if bool_decide (s ∈ STATUS_CHOICES) then Some (Some s) else None
           | Some _ => None
           end;
  Some (is_active, status).

(** Modelled from the spec: the update of [PointStatusUpdateSerializer]
    writes the two moderation fields, each when the body gives it, and
    nothing else. *)
Definition PointStatusUpdateSerializer_update (p : CollectionPoint)
    (vd : option bool * option string) : CollectionPoint :=
  {| cp_user_id := cp_user_id p;
     cp_is_active := default (cp_is_active p) vd.1;
     cp_status := default (cp_status p) vd.2;
     cp_fields := cp_fields p |}.

(** [serializer.save] with keyword arguments, for [OperatingHourSerializer]
    on create: the keyword arguments are merged over [validated_data], so a
    [collection_point_id] given to [save] replaces the collection point of
    the body; a row with no collection point breaks the NOT NULL
    constraint. *)
Definition OperatingHourSerializer_save (vd : option Z * Fields)
    (collection_point_id : option (option Z)) : View (Z * OperatingHour) :=
  match default vd.1 collection_point_id with
  | Some k =>
      OperatingHour_objects_create {| oh_collection_point_id := k; oh_fields := vd.2 |}
  | None => raise IntegrityError
  end.

(** ** The views of [eco_points/views.py] *)

Definition get_all_object_collection_point : View (gmap Z CollectionPoint) :=
  db ← get_db; mret (collection_points db).

Definition get_all_object_operating_hour : View (gmap Z OperatingHour) :=
  db ← get_db; mret (operating_hours db).

(** [ListModelMixin.list]: the rows of the queryset, status 200 (no view
    sets a pagination class). *)
Definition list_response {A} (wrap : list (Z * A) → Payload)
    (get_queryset : View (gmap Z A)) : View Response :=
  queryset ← get_queryset;
  mret {| status_code := HTTP_200_OK; payload := wrap (map_to_list queryset) |}.

Definition created {A} (wrap : Z → A → Payload) (row : Z * A) : Response :=
  {| status_code := HTTP_201_CREATED; payload := wrap row.1 row.2 |}.

Definition ok {A} (wrap : Z → A → Payload) (row : Z * A) : Response :=
  {| status_code := HTTP_200_OK; payload := wrap row.1 row.2 |}.

Section views.
Context {serializers : Serializers}.

(** *** [CollectionPointList] (list, create) *)

Definition CollectionPointList_list : View Response :=
  list_response Points get_all_object_collection_point.

(** [CreateModelMixin.create]: validate the body, [perform_create] saves the
    serializer, status 201. *)
Definition CollectionPointList_create (r : Request) : View Response :=
  d ← request_data r;
  fields ← is_valid (λ db, CollectionPointSerializer_fields db false) d;
  row ← CollectionPointSerializer_create r fields;
  mret (created Point row).

(** *** [CollectionPointDetail] (retrieve, update, partial update) *)

Definition CollectionPointDetail_retrieve (pk : Z) : View Response :=
  row ← get_object_or_404 collection_points (Some pk);
  mret (ok Point row).

(** [UpdateModelMixin.update]: the instance is fetched first, then the body
    is validated, then [perform_update] saves. *)
Definition CollectionPointDetail_update (partial : bool) (r : Request) (pk : Z)
    : View Response :=
  '(k, p) ← get_object_or_404 collection_points (Some pk);
  d ← request_data r;
  fields ← is_valid (λ db, CollectionPointSerializer_fields db partial) d;
  let p' := CollectionPointSerializer_update p fields in
  CollectionPoint_save k p' ;;
  mret (ok Point (k, p')).

(** *** [OperatingHourList] (list, create): the body names the point *)

Definition OperatingHourList_list : View Response :=
  list_response Hours get_all_object_operating_hour.

Definition OperatingHourList_create (r : Request) : View Response :=
  d ← request_data r;
  vd ← is_valid OperatingHourSerializer_fields d;
  row ← OperatingHourSerializer_save vd None;
  mret (created Hour row).

(** *** [OperatingHourDetail] (list and create for one point) *)

Definition OperatingHourDetail_get_queryset (collection_point_pk : option Z)
    : View (gmap Z OperatingHour) :=
  db ← get_db;
  match collection_point_pk with
  | Some pk =>
      mret (filter (λ kh, oh_collection_point_id kh.2 = pk) (operating_hours db))
  | None => mret ∅
  end.

Definition OperatingHourDetail_perform_create (collection_point_pk : option Z)
    (serializer : option Z * Fields) : View (Z * OperatingHour) :=
  get_object_or_404 collection_points collection_point_pk ;;
  OperatingHourSerializer_save serializer (Some collection_point_pk).

Definition OperatingHourDetail_list (collection_point_pk : option Z) : View Response :=
  list_response Hours (OperatingHourDetail_get_queryset collection_point_pk).

Definition OperatingHourDetail_create (r : Request) (collection_point_pk : option Z)
    : View Response :=
  d ← request_data r;
  vd ← is_valid OperatingHourSerializer_fields d;
  row ← OperatingHourDetail_perform_create collection_point_pk vd;
  mret (created Hour row).

(** *** [PointReviewFilteredList] *)

Definition PointReviewFilteredList_get (request : Request) : View Response :=
  let user_id := QueryDict_get "user_id" (query_params request) in
  let point_id := QueryDict_get "id" (query_params request) in
  db ← get_db;
  let queryset := point_reviews db in
  queryset ← (if truthy user_id
              then filter_int pr_user_id (default EmptyString user_id) queryset
              else mret queryset);
  queryset ← (if truthy point_id
              then filter_int pr_collection_point_id (default EmptyString point_id) queryset
              else mret queryset);
  mret {| status_code := HTTP_200_OK; payload := Reviews (map_to_list queryset) |}.

(** *** [PointImageUploadView] *)

Definition PointImageUploadView_post (request : Request) (pk : option Z) : View Response :=
  '(collection_point, _) ← get_object_or_404 collection_points pk;
  d ← request_data request;
  image_file ← is_valid PointImageUploadSerializer_image d;
  new_image ← PointImage_objects_create
    {| pi_collection_point_id := collection_point; pi_image := image_file |};
  mret (created Image new_image).

(** *** [UserSubmitedCollectionPointsList] *)

(** [filter(user=user)]: [AnonymousUser] is no value for the column. *)
Definition UserSubmitedCollectionPointsList_get_queryset (request : Request)
    : View (gmap Z CollectionPoint) :=
  match user request with
  | Some u =>
      db ← get_db;
      mret (filter (λ kp, cp_user_id kp.2 = user_pk u) (collection_points db))
  | None => raise TypeError
  end.

(** *** [ActiveCollectionPointsList] and [InactiveCollectionPointsList] *)

Definition ActiveCollectionPointsList_get_queryset : View (gmap Z CollectionPoint) :=
  db ← get_db;
  mret (filter (λ kp, cp_is_active kp.2 = true) (collection_points db)).

Definition InactiveCollectionPointsList_get_queryset : View (gmap Z CollectionPoint) :=
  db ← get_db;
  mret (filter (λ kp, cp_is_active kp.2 = false ∧ cp_status kp.2 = PENDING)
          (collection_points db)).

(** *** [UpdatePointStatusView] (update, partial update) *)

Definition UpdatePointStatusView_update (r : Request) (pk : Z) : View Response :=
  '(k, p) ← get_object_or_404 collection_points (Some pk);
  d ← request_data r;
  vd ← is_valid PointStatusUpdateSerializer_fields d;
  let p' := PointStatusUpdateSerializer_update p vd in
  CollectionPoint_save k p' ;;
  mret (ok Point (k, p')).

(** ** The API: the routes of the views above, each with its permission

    [DELETE] on a collection point, and the views of the collection types
    and of the single reviews, are left out: the spec keeps them out of the
    moderation state machine, and none of them writes a column of a stored
    collection point. *)

Inductive Call :=
| ListPoints
| CreatePoint
| RetrievePoint (pk : Z)
| UpdatePoint (partial : bool) (pk : Z)
| ListHours
| CreateHour
| ListHoursOf (collection_point_pk : option Z)
| CreateHourOf (collection_point_pk : option Z)
| FilterReviews
| UploadImage (pk : option Z)
| ListMine
| ListActive
| ListInactive
| ModeratePoint (pk : Z).

Definition handle (c : Call) (r : Request) : DB → DB * Response :=
  match c with
  | ListPoints => dispatch [IsAuthenticated] r CollectionPointList_list
  | CreatePoint => dispatch [IsAuthenticated] r (CollectionPointList_create r)
  | RetrievePoint pk => dispatch [IsAuthenticated] r (CollectionPointDetail_retrieve pk)
  | UpdatePoint partial pk =>
      dispatch [IsAuthenticated] r (CollectionPointDetail_update partial r pk)
  | ListHours => dispatch [IsAuthenticated] r OperatingHourList_list
  | CreateHour => dispatch [IsAuthenticated] r (OperatingHourList_create r)
  | ListHoursOf pk => dispatch [IsAuthenticated] r (OperatingHourDetail_list pk)
  | CreateHourOf pk => dispatch [IsAuthenticated] r (OperatingHourDetail_create r pk)
  | FilterReviews => dispatch [IsAuthenticated] r (PointReviewFilteredList_get r)
  | UploadImage pk => dispatch [IsAuthenticated] r (PointImageUploadView_post r pk)
  | ListMine =>
      dispatch [IsAuthenticated] r
        (list_response Points (UserSubmitedCollectionPointsList_get_queryset r))
  | ListActive =>
      dispatch [IsAuthenticated] r
        (list_response Points ActiveCollectionPointsList_get_queryset)
  | ListInactive =>
      dispatch [IsAuthenticated] r
        (list_response Points InactiveCollectionPointsList_get_queryset)
  | ModeratePoint pk => dispatch [IsAdminUser] r (UpdatePointStatusView_update r pk)
  end.

End views.

(** ** Invariants of the database *)

(** Every primary key in a table was handed out by its sequence. *)
Definition sequences_ahead (db : DB) : Prop :=
  map_Forall (λ k _, k < seq_collection_point db) (collection_points db) ∧
  map_Forall (λ k _, k < seq_operating_hour db) (operating_hours db) ∧
  map_Forall (λ k _, k < seq_point_image db) (point_images db).

(** The foreign keys of the operating hours and of the images name rows of
    the collection points. *)
Definition references_valid (db : DB) : Prop :=
  map_Forall (λ _ h, is_Some (collection_points db !! oh_collection_point_id h))
    (operating_hours db) ∧
  map_Forall (λ _ i, is_Some (collection_points db !! pi_collection_point_id i))
    (point_images db).

(** The id of the path names no collection point. *)
Definition names_no_point (db : DB) (pk : option Z) : Prop :=
  match pk with
  | Some k => collection_points db !! k = None
  | None => True
  end.

(** The moderation fields of a collection point. *)
Definition moderation (p : CollectionPoint) : bool * string :=
  (cp_is_active p, cp_status p).

(** ** Sample serializers and data, to run the views on concrete requests *)

Definition sample_point_fields (db : DB) (partial : bool) (d : Dict) : option Fields :=
  match QueryDict_get "name" d with
  | Some (VStr s) => Some {[ "name" := VStr s ]}
  | Some _ => None
  | None => if partial then Some ∅ else None
  end.

Definition sample_hour_fields (db : DB) (d : Dict) : option (option Z * Fields) :=
  match QueryDict_get "day" d, QueryDict_get "collection_point" d with
  | Some (VInt n), Some (VInt q) =>
      if bool_decide (is_Some (collection_points db !! q))
      then Some (Some q, {[ "day" := VInt n ]}) else None
  | Some (VInt n), None => Some (None, {[ "day" := VInt n ]})
  | _, _ => None
  end.

Definition sample_image (db : DB) (d : Dict) : option UploadedFile :=
  match QueryDict_get "image" d with
  | Some (VFile f) => Some f
  | _ => None
  end.

Definition sample_serializers : Serializers :=
  {| CollectionPointSerializer_fields := sample_point_fields;
     OperatingHourSerializer_fields := sample_hour_fields;
     PointImageUploadSerializer_image := sample_image |}.

Definition alice : User :=
  {| user_pk := 5; email := "alice@example.org"; first_name := "Alice";
     last_name := "A"; is_active := true; is_staff := false |}.

Definition root : User :=
  {| user_pk := 1; email := "root@example.org"; first_name := "Root";
     last_name := "R"; is_active := true; is_staff := true |}.

Definition request_of (u : option User) (q : list (string * string)) (d : Data) : Request :=
  {| user := u; authenticators := [true]; query_params := q; data := d |}.

Definition glass_point : CollectionPoint :=
  {| cp_user_id := 5; cp_is_active := false; cp_status := PENDING;
     cp_fields := {[ "name" := VStr "Glass" ]} |}.

Definition paper_point : CollectionPoint :=
  {| cp_user_id := 6; cp_is_active := true; cp_status := APPROVED;
     cp_fields := {[ "name" := VStr "Paper" ]} |}.

Definition review_of (u p : Z) : PointReview :=
  {| pr_user_id := u; pr_collection_point_id := p; pr_fields := ∅ |}.

(** Two points (3 pending, owned by user 5; 4 approved, owned by user 6),
    one operating hour of point 3, and a review of each point. *)
Definition sample_db : DB :=
  {| collection_points := {[ 3 := glass_point; 4 := paper_point ]};
     operating_hours := {[ 1 := {| oh_collection_point_id := 3; oh_fields := ∅ |} ]};
     point_reviews := {[ 1 := review_of 5 3; 2 := review_of 6 4 ]};
     point_images := ∅;
     seq_collection_point := 5; seq_operating_hour := 2; seq_point_image := 1 |}.

Definition photo : UploadedFile := {| file_name := "photo.png"; file_size := 1024 |}.

(** The exception of [permission_denied] for a request. *)
Definition refusal (r : Request) : Exception :=
  match authenticators r, user r with
  | _ :: _, None => NotAuthenticated
  | _, _ => PermissionDenied
  end.

(** The errors of a body: what [request.data] and [is_valid] raise. *)
Definition body_error (e : Exception) : Prop :=
  e = ParseError ∨ e = UnsupportedMediaType ∨ e = ValidationError.

(** The body of an upload that the view refuses. *)
Definition upload_refused {serializers : Serializers} (db : DB) (r : Request) : Prop :=
  match data r with
  | Mapping d => PointImageUploadSerializer_image db d = None
  | _ => True
  end.

Global Instance sequences_ahead_dec db : Decision (sequences_ahead db).
Proof. unfold sequences_ahead. apply _. Defined.

Global Instance references_valid_dec db : Decision (references_valid db).
Proof. unfold references_valid. apply _. Defined.

(** The writes of one call: what a request may do to the database. *)
Inductive effect (r : Request) (db : DB) : Call → DB → Prop :=
| effect_none c : effect r db c db
| effect_create_point u fields :
    user r = Some u →
    effect r db CreatePoint
      (set_collection_points
         (<[seq_collection_point db :=
              {| cp_user_id := user_pk u; cp_is_active := false;
                 cp_status := PENDING; cp_fields := fields |}]> (collection_points db))
         (seq_collection_point db + 1) db)
| effect_update_point partial k p fields :
    collection_points db !! k = Some p →
    effect r db (UpdatePoint partial k)
      (set_collection_points
         (<[k := CollectionPointSerializer_update p fields]> (collection_points db))
         (seq_collection_point db) db)
| effect_moderate_point k p vd :
    IsAdminUser r = true →
    collection_points db !! k = Some p →
    effect r db (ModeratePoint k)
      (set_collection_points
         (<[k := PointStatusUpdateSerializer_update p vd]> (collection_points db))
         (seq_collection_point db) db)
| effect_create_hour h :
    is_Some (collection_points db !! oh_collection_point_id h) →
    effect r db CreateHour
      (set_operating_hours (<[seq_operating_hour db := h]> (operating_hours db))
         (seq_operating_hour db + 1) db)
| effect_create_hour_of k fields :
    is_Some (collection_points db !! k) →
    effect r db (CreateHourOf (Some k))
      (set_operating_hours
         (<[seq_operating_hour db := {| oh_collection_point_id := k; oh_fields := fields |}]>
            (operating_hours db))
         (seq_operating_hour db + 1) db)
| effect_upload_image k f :
    is_Some (collection_points db !! k) →
    effect r db (UploadImage (Some k))
      (set_point_images
         (<[seq_point_image db := {| pi_collection_point_id := k; pi_image := f |}]>
            (point_images db))
         (seq_point_image db + 1) db).

(** [r] with one more pair at the end of its query string. *)
Definition with_query_parameter (r : Request) (k v : string) : Request :=
  {| user := user r; authenticators := authenticators r;
     query_params := query_params r ++ [(k, v)]; data := data r |}.

(** ** More of the API *)

(** The routes that only read. *)
Definition reads (c : Call) : bool :=
  match c with
  | ListPoints | RetrievePoint _ | ListHours | ListHoursOf _ | FilterReviews
  | ListMine | ListActive | ListInactive => true
  | _ => false
  end.



(** [sample_db] with a third point, rejected and inactive. *)
Definition rejected_point : CollectionPoint :=
  {| cp_user_id := 5; cp_is_active := false; cp_status := REJECTED;
     cp_fields := {[ "name" := VStr "Tyres" ]} |}.

Definition moderated_db : DB :=
  set_collection_points (<[7 := rejected_point]> (collection_points sample_db)) 8 sample_db.

(** ** [accounts/models.py]: the manager of the users *)

(** [set_password]: the hash of the raw password, or the unusable password
    for [None]. *)
Inductive Password :=
| Unusable
| Hashed (raw_password : string).

(** A row of [User]: the columns the views read, the superuser flag of
    [PermissionsMixin] and the password. *)
Record Account := {
  account_user : User;
  is_superuser : bool;
  password : Password
}.

Record Accounts := { users : gmap Z Account; seq_user : Z }.

(** The keyword arguments [extra_fields], as far as they give the flags of
    the model; a flag that is not given is [None]. *)
Record ExtraFields := {
  extra_is_active : option bool;
  extra_is_staff : option bool;
  extra_is_superuser : option bool
}.

Definition no_extra_fields : ExtraFields :=
  {| extra_is_active := None; extra_is_staff := None; extra_is_superuser := None |}.

(** [str.lower] on ASCII. *)
Definition lower (c : ascii) : ascii :=
  let n := nat_of_ascii c in
  if ((65 <=? n) && (n <=? 90))%nat then ascii_of_nat (n + 32) else c.

Fixpoint str_lower (s : string) : string :=
  match s with
  | EmptyString => EmptyString
  | String c s' => String (lower c) (str_lower s')
  end.

(** [s.rsplit(sep, 1)] as a pair: [None] when [sep] is not in [s]. *)
Fixpoint rsplit (sep : ascii) (s : string) : option (string * string) :=
  match s with
  | EmptyString => None
  | String c s' =>
      match rsplit sep s' with
      | Some (a, b) => Some (String c a, b)
      | None => if Ascii.eqb c sep then Some (EmptyString, s') else None
      end
  end.

(** [BaseUserManager.normalize_email]: the domain part in lower case; an
    address with no [@] is returned as it is. *)
Definition normalize_email (email : string) : string :=
  match rsplit "@" (rstrip (lstrip email)) with
  | Some (email_name, domain_part) => email_name ++ "@" ++ str_lower domain_part
  | None => email
  end.

Definition set_password (raw_password : option string) : Password :=
  match raw_password with
  | Some raw => Hashed raw
  | None => Unusable
  end.

(** [user.save()] of a new user: the row gets the next primary key; [email]
    is unique, a second row with the same address is refused. *)
Definition User_save (user : Account) (db : Accounts)
    : Accounts * (Exception + (Z * Account)) :=
  if bool_decide (map_Exists (λ _ a, email (account_user a) = email (account_user user))
                    (users db))
  then (db, inl IntegrityError)
  else ({| users := <[seq_user db := user]> (users db); seq_user := seq_user db + 1 |},
        inr (seq_user db, user)).

Definition UserManager_create_user (email : option string) (first_name last_name : string)
    (password : option string) (extra_fields : ExtraFields) (db : Accounts)
    : Accounts * (Exception + (Z * Account)) :=
  if negb (truthy email) then (db, inl ValueError)
  else
    let email := normalize_email (default EmptyString email) in
    let user :=
      {| account_user :=
           {| user_pk := seq_user db; email := email; first_name := first_name;
              last_name := last_name;
              is_active := default true (extra_is_active extra_fields);
              is_staff := default false (extra_is_staff extra_fields) |};
         is_superuser := default false (extra_is_superuser extra_fields);
         password := set_password password |} in
    User_save user db.

(** [dict.setdefault]. *)
Definition setdefault {A} (given : option A) (value : A) : option A :=
  match given with
  | Some x => Some x
  | None => Some value
  end.

Definition UserManager_create_superuser (email : option string)
    (first_name last_name : string) (password : option string)
    (extra_fields : ExtraFields) (db : Accounts)
    : Accounts * (Exception + (Z * Account)) :=
  let extra_fields :=
    {| extra_is_active := extra_is_active extra_fields;
       extra_is_staff := setdefault (extra_is_staff extra_fields) true;
       extra_is_superuser := setdefault (extra_is_superuser extra_fields) true |} in
  UserManager_create_user email first_name last_name password extra_fields db.

(** No two accounts share an email, and every key comes from the
    sequence. *)
Definition accounts_consistent (db : Accounts) : Prop :=
  map_Forall (λ k _, k < seq_user db) (users db) ∧
  ∀ j1 j2 a1 a2,
    users db !! j1 = Some a1 → users db !! j2 = Some a2 →
    email (account_user a1) = email (account_user a2) → j1 = j2.

Definition no_accounts : Accounts := {| users := ∅; seq_user := 1 |}.

(** The accounts after [create_user("Bob@Example.ORG", "Bob", "B", "pw")]
    on an empty table. *)
Definition bob_accounts : Accounts :=
  (UserManager_create_user (Some "Bob@Example.ORG") "Bob" "B" (Some "pw")
     no_extra_fields no_accounts).1.

Definition bob : Account :=
  {| account_user :=
       {| user_pk := 1; email := "Bob@example.org"; first_name := "Bob";
          last_name := "B"; is_active := true; is_staff := false |};
     is_superuser := false;
     password := Hashed "pw" |}.


(** ** Tactics *)

Ltac view_unfold :=
  unfold respond, list_response, created, ok, mbind, View_bind, mret,
    View_ret, raise, get_db, put_db in *.

Ltac views_unfold :=
  unfold CollectionPointList_list, CollectionPointList_create,
    CollectionPointDetail_retrieve, CollectionPointDetail_update,
    OperatingHourList_list, OperatingHourList_create, OperatingHourDetail_list,
    OperatingHourDetail_create, OperatingHourDetail_perform_create,
    OperatingHourDetail_get_queryset, PointReviewFilteredList_get,
    PointImageUploadView_post, UserSubmitedCollectionPointsList_get_queryset,
    ActiveCollectionPointsList_get_queryset, InactiveCollectionPointsList_get_queryset,
    UpdatePointStatusView_update, get_all_object_collection_point,
    get_all_object_operating_hour, request_data, is_valid, get_object_or_404,
    CollectionPointSerializer_create, CollectionPoint_objects_create,
    CollectionPoint_save, OperatingHourSerializer_save, OperatingHour_objects_create,
    PointImage_objects_create, filter_int in *;
  view_unfold.

Ltac by_computation := apply (bool_decide_unpack _); vm_compute; exact I.

(** * Properties *)

Example py_int_examples :
  py_int "5" = Some 5 ∧ py_int " 12 " = Some 12 ∧ py_int "-7" = Some (-7) ∧
  py_int "1_000" = Some 1000 ∧ py_int "abc" = None ∧ py_int "1__0" = None ∧
  py_int "5_" = None ∧ py_int "+" = None ∧ py_int "007" = Some 7.
Proof. repeat split; reflexivity. Qed.

Example QueryDict_get_last :
  QueryDict_get "a" [("a", 1); ("b", 2); ("a", 3)] = Some 3.
Proof. reflexivity. Qed.

Lemma sample_db_sequences_ahead : sequences_ahead sample_db.
Proof. by_computation. Qed.

Lemma sample_db_references_valid : references_valid sample_db.
Proof. by_computation. Qed.

(** ** Dispatch *)

Lemma dispatch_allowed perm r h db :
  perm r = true → dispatch [perm] r h db = respond r h db.
Proof.
  intros Hp. unfold dispatch, respond. simpl. rewrite Hp.
  unfold mbind, View_bind, mret, View_ret. reflexivity.
Qed.

Lemma dispatch_refused perm r h db :
  perm r = false → dispatch [perm] r h db = (db, handle_exception r (refusal r)).
Proof.
  intros Hp. unfold dispatch, respond, refusal. simpl. rewrite Hp.
  unfold permission_denied, mbind, View_bind.
  destruct (authenticators r), (user r); reflexivity.
Qed.

Lemma authenticated_user r u : user r = Some u → IsAuthenticated r = true.
Proof. unfold IsAuthenticated. intros ->. reflexivity. Qed.

Section listings.
Context {serializers : Serializers}.

(** C3.  For every state of the registry, the active listing returns exactly
    the points with [is_active = true], the inactive-pending listing returns
    exactly the points with [is_active = false] and [status = 'pending'], and
    no point is in both. *)
Theorem active_and_inactive_listings (db : DB) (r : Request) :
  IsAuthenticated r = true →
  ∃ active inactive,
    handle ListActive r db
      = (db, {| status_code := 200; payload := Points active |}) ∧
    handle ListInactive r db
      = (db, {| status_code := 200; payload := Points inactive |}) ∧
    (∀ k p, (k, p) ∈ active ↔
       collection_points db !! k = Some p ∧ cp_is_active p = true) ∧
    (∀ k p, (k, p) ∈ inactive ↔
       collection_points db !! k = Some p ∧ cp_is_active p = false ∧
       cp_status p = "pending") ∧
    (∀ k p q, (k, p) ∈ active → (k, q) ∈ inactive → False).
Proof.
  intros Hauth. eexists _, _.
  split; [|split]; [simpl; rewrite dispatch_allowed by done; reflexivity ..|].
  split; [|split].
  - intros k p. rewrite elem_of_map_to_list, map_lookup_filter_Some. reflexivity.
  - intros k p. rewrite elem_of_map_to_list, map_lookup_filter_Some. reflexivity.
  - intros k p q. rewrite !elem_of_map_to_list, !map_lookup_filter_Some. simpl.
    intros [Hp Ha] [Hq [Hi _]]. congruence.
Qed.

(** C8.  For every authenticated user U, the own-submitted-points listing
    returns exactly the points whose owner is U, the pending and inactive
    ones among them, and the empty sequence, with status 200, when U owns
    none. *)
Theorem own_points_listing (db : DB) (r : Request) (u : User) :
  user r = Some u →
  ∃ mine,
    handle ListMine r db = (db, {| status_code := 200; payload := Points mine |}) ∧
    (∀ k p, (k, p) ∈ mine ↔
       collection_points db !! k = Some p ∧ cp_user_id p = user_pk u) ∧
    (∀ k p, collection_points db !! k = Some p → cp_user_id p = user_pk u →
       cp_is_active p = false → (k, p) ∈ mine) ∧
    ((∀ k p, collection_points db !! k = Some p → cp_user_id p ≠ user_pk u) →
       mine = []).
Proof.
  intros Hu. eexists. split.
  { simpl. rewrite dispatch_allowed by eauto using authenticated_user.
    unfold UserSubmitedCollectionPointsList_get_queryset. rewrite Hu. reflexivity. }
  assert (Hin : ∀ k p,
    (k, p) ∈ map_to_list (filter (λ kp, cp_user_id kp.2 = user_pk u) (collection_points db))
    ↔ collection_points db !! k = Some p ∧ cp_user_id p = user_pk u).
  { intros k p. rewrite elem_of_map_to_list, map_lookup_filter_Some. reflexivity. }
  split; [exact Hin|]. split.
  - intros k p Hk Ho _. apply Hin. auto.
  - intros Hnone. apply elem_of_nil_inv. intros [k p] Hkp.
    apply Hin in Hkp as [Hk Ho]. exact (Hnone k p Hk Ho).
Qed.

End listings.

Lemma active_and_inactive_listings_witness :
  ∃ active inactive,
    handle (serializers := sample_serializers) ListActive (request_of (Some alice) [] NotMapping) sample_db
      = (sample_db, {| status_code := 200; payload := Points active |}) ∧
    handle (serializers := sample_serializers) ListInactive (request_of (Some alice) [] NotMapping) sample_db
      = (sample_db, {| status_code := 200; payload := Points inactive |}) ∧
    (∀ k p, (k, p) ∈ active ↔
       collection_points sample_db !! k = Some p ∧ cp_is_active p = true) ∧
    (∀ k p, (k, p) ∈ inactive ↔
       collection_points sample_db !! k = Some p ∧ cp_is_active p = false ∧
       cp_status p = "pending") ∧
    (∀ k p q, (k, p) ∈ active → (k, q) ∈ inactive → False).
Proof.
  apply (active_and_inactive_listings (serializers := sample_serializers) sample_db
           (request_of (Some alice) [] NotMapping)).
  reflexivity.
Defined.

Lemma own_points_listing_witness :
  ∃ mine,
    handle (serializers := sample_serializers) ListMine (request_of (Some alice) [] NotMapping) sample_db
      = (sample_db, {| status_code := 200; payload := Points mine |}) ∧
    (∀ k p, (k, p) ∈ mine ↔
       collection_points sample_db !! k = Some p ∧ cp_user_id p = user_pk alice) ∧
    (∀ k p, collection_points sample_db !! k = Some p → cp_user_id p = user_pk alice →
       cp_is_active p = false → (k, p) ∈ mine) ∧
    ((∀ k p, collection_points sample_db !! k = Some p → cp_user_id p ≠ user_pk alice) →
       mine = []).
Proof.
  apply (own_points_listing (serializers := sample_serializers) sample_db
           (request_of (Some alice) [] NotMapping) alice).
  reflexivity.
Defined.

Section operating_hours.
Context {serializers : Serializers}.

(** X10.  The scoped listing of operating hours never fails: whatever the id
    of the path, it answers 200 with exactly the hours whose foreign key is
    that id. *)
Lemma hours_listing_never_fails (db : DB) (r : Request) (pk : option Z) :
  IsAuthenticated r = true →
  ∃ l,
    handle (ListHoursOf pk) r db = (db, {| status_code := 200; payload := Hours l |}) ∧
    ∀ k h, (k, h) ∈ l ↔
      operating_hours db !! k = Some h ∧ pk = Some (oh_collection_point_id h).
Proof.
  intros Hauth. simpl. rewrite dispatch_allowed by done.
  destruct pk as [pk|]; eexists; (split; [reflexivity|]); intros k h.
  - rewrite elem_of_map_to_list, map_lookup_filter_Some. simpl.
    split; intros [? ?]; split; congruence.
  - rewrite map_to_list_empty, elem_of_nil. split; [tauto|]. intros [_ ?]. discriminate.
Qed.

(** C9.  For every scoped operating-hours listing whose path id names no
    collection point, or with no id in the path, the answer is the empty
    sequence with status 200, not [NotFound]: the listing does not check
    that the point exists. *)
Theorem hours_listing_of_unknown_point (db : DB) (r : Request) (pk : option Z) :
  IsAuthenticated r = true →
  references_valid db →
  names_no_point db pk →
  handle (ListHoursOf pk) r db = (db, {| status_code := 200; payload := Hours [] |}).
Proof.
  intros Hauth [Hrefs _] Hno. simpl. rewrite dispatch_allowed by done.
  destruct pk as [pk|]; simpl in Hno.
  - unfold OperatingHourDetail_list, OperatingHourDetail_get_queryset.
    view_unfold.
    rewrite (map_empty_filter_2 _ (operating_hours db)).
    + rewrite map_to_list_empty. reflexivity.
    + intros k h Hk. simpl. intros Hfk.
      destruct (Hrefs k h Hk) as [p Hp]. congruence.
  - unfold OperatingHourDetail_list, OperatingHourDetail_get_queryset.
    view_unfold. rewrite map_to_list_empty. reflexivity.
Qed.

(** [perform_create] of the scoped view looks the point up before anything
    is saved. *)
Lemma perform_create_unknown_point (db : DB) (pk : option Z) (vd : option Z * Fields) :
  names_no_point db pk →
  OperatingHourDetail_perform_create pk vd db = (db, inl Http404).
Proof.
  intros Hno. unfold OperatingHourDetail_perform_create, get_object_or_404.
  view_unfold. destruct pk as [pk|]; simpl in Hno; [rewrite Hno|]; reflexivity.
Qed.

Lemma perform_create_known_point (db : DB) (P : Z) (p : CollectionPoint)
    (vd : option Z * Fields) :
  collection_points db !! P = Some p →
  let h := {| oh_collection_point_id := P; oh_fields := vd.2 |} in
  let k := seq_operating_hour db in
  OperatingHourDetail_perform_create (Some P) vd db
  = (set_operating_hours (<[k := h]> (operating_hours db)) (k + 1) db, inr (k, h)).
Proof.
  intros HP. unfold OperatingHourDetail_perform_create, get_object_or_404,
    OperatingHourSerializer_save, OperatingHour_objects_create.
  view_unfold. rewrite HP. simpl. rewrite HP. reflexivity.
Qed.

(** C4, as the code has it.  For every scoped create-operating-hour request
    of an authenticated caller whose path id names no collection point, no
    operating hour is created and the database is unchanged; the error is
    [NotFound] (404) when the body passes the validation of the serializer,
    and the error of the body (400, or 415) otherwise, since the body is
    validated before [perform_create] looks the point up. *)
Theorem hour_create_for_unknown_point (db : DB) (r : Request) (pk : option Z) :
  IsAuthenticated r = true →
  names_no_point db pk →
  ∃ e,
    handle (CreateHourOf pk) r db = (db, handle_exception r e) ∧
    match data r with
    | Mapping d =>
        match OperatingHourSerializer_fields db d with
        | Some _ => e = Http404
        | None => e = ValidationError
        end
    | NotMapping => e = ValidationError
    | Unparsed unsupported =>
        e = if unsupported then UnsupportedMediaType else ParseError
    end.
Proof.
  intros Hauth Hno. simpl. rewrite dispatch_allowed by done.
  unfold OperatingHourDetail_create, request_data, is_valid. view_unfold.
  destruct (data r) as [[|]| |d]; try (eexists; split; reflexivity).
  destruct (OperatingHourSerializer_fields db d) as [vd|].
  - rewrite perform_create_unknown_point by done. eexists; split; reflexivity.
  - eexists; split; reflexivity.
Qed.

(** C5.  For every scoped create-operating-hour request on an existing point
    P whose body names another point Q, the created operating hour is linked
    to P, the id of the path, not to Q. *)
Theorem hour_create_links_to_path_point (db : DB) (r : Request) (P Q : Z)
    (p : CollectionPoint) (d : Dict) (fields : Fields) :
  IsAuthenticated r = true →
  collection_points db !! P = Some p →
  data r = Mapping d →
  OperatingHourSerializer_fields db d = Some (Some Q, fields) →
  Q ≠ P →
  let h := {| oh_collection_point_id := P; oh_fields := fields |} in
  let k := seq_operating_hour db in
  handle (CreateHourOf (Some P)) r db
  = (set_operating_hours (<[k := h]> (operating_hours db)) (k + 1) db,
     {| status_code := 201; payload := Hour k h |}) ∧
  oh_collection_point_id h ≠ Q.
Proof.
  intros Hauth HP Hd Hvd HQ h k. split; [|simpl; congruence].
  simpl. rewrite dispatch_allowed by done.
  unfold OperatingHourDetail_create, request_data, is_valid. view_unfold.
  rewrite Hd, Hvd, (perform_create_known_point db P p) by done. reflexivity.
Qed.

(** X12.  The route that is not scoped links the new hour to the point of
    the body. *)
Lemma hour_create_links_to_body_point (db : DB) (r : Request) (Q : Z)
    (q : CollectionPoint) (d : Dict) (fields : Fields) :
  IsAuthenticated r = true →
  collection_points db !! Q = Some q →
  data r = Mapping d →
  OperatingHourSerializer_fields db d = Some (Some Q, fields) →
  let h := {| oh_collection_point_id := Q; oh_fields := fields |} in
  let k := seq_operating_hour db in
  handle CreateHour r db
  = (set_operating_hours (<[k := h]> (operating_hours db)) (k + 1) db,
     {| status_code := 201; payload := Hour k h |}).
Proof.
  intros Hauth HQ Hd Hvd h k. simpl. rewrite dispatch_allowed by done.
  unfold OperatingHourList_create, request_data, is_valid,
    OperatingHourSerializer_save, OperatingHour_objects_create. view_unfold.
  rewrite Hd, Hvd. simpl. rewrite HQ. reflexivity.
Qed.

End operating_hours.

Lemma hours_listing_of_unknown_point_witness :
  references_valid sample_db ∧
  names_no_point sample_db (Some 9) ∧
  handle (serializers := sample_serializers) (ListHoursOf (Some 9))
    (request_of (Some alice) [] NotMapping) sample_db
  = (sample_db, {| status_code := 200; payload := Hours [] |}).
Proof.
  assert (Hrefs : references_valid sample_db) by by_computation.
  split; [exact Hrefs|]. split; [reflexivity|].
  apply (hours_listing_of_unknown_point (serializers := sample_serializers) sample_db
           (request_of (Some alice) [] NotMapping) (Some 9));
    [reflexivity | exact Hrefs | reflexivity].
Defined.

(** C4, as stated, fails: the point 7 does not exist, the body is a JSON
    array, and the answer is the validation error 400, not 404. *)
Lemma hour_create_for_unknown_point_counterexample :
  let r := request_of (Some alice) [] NotMapping in
  let answer := handle (serializers := sample_serializers) (CreateHourOf (Some 7)) r sample_db in
  IsAuthenticated r = true ∧
  collection_points sample_db !! 7 = None ∧
  answer = (sample_db, {| status_code := 400; payload := Error ValidationError |}) ∧
  status_code answer.2 ≠ 404.
Proof. vm_compute. repeat split; discriminate. Qed.

Lemma hour_create_for_unknown_point_witness :
  let r := request_of (Some alice) [] (Mapping [("day", VInt 1)]) in
  names_no_point sample_db (Some 7) ∧
  ∃ e,
    handle (serializers := sample_serializers) (CreateHourOf (Some 7)) r sample_db
    = (sample_db, handle_exception r e) ∧
    e = Http404.
Proof.
  intros r. split; [reflexivity|].
  destruct (hour_create_for_unknown_point (serializers := sample_serializers) sample_db r (Some 7))
    as [e [He Hwhich]]; [reflexivity | reflexivity |].
  exists e. split; [exact He | exact Hwhich].
Defined.

Lemma hour_create_links_to_path_point_witness :
  let r := request_of (Some alice) []
             (Mapping [("day", VInt 1); ("collection_point", VInt 4)]) in
  let h := {| oh_collection_point_id := 3; oh_fields := {[ "day" := VInt 1 ]} |} in
  collection_points sample_db !! 3 = Some glass_point ∧
  OperatingHourSerializer_fields (Serializers := sample_serializers) sample_db
    [("day", VInt 1); ("collection_point", VInt 4)]
  = Some (Some 4, {[ "day" := VInt 1 ]}) ∧
  handle (serializers := sample_serializers) (CreateHourOf (Some 3)) r sample_db
  = (set_operating_hours (<[2 := h]> (operating_hours sample_db)) (2 + 1) sample_db,
     {| status_code := 201; payload := Hour 2 h |}) ∧
  oh_collection_point_id h ≠ 4.
Proof.
  intros r h.
  split; [reflexivity|]. split; [reflexivity|].
  apply (hour_create_links_to_path_point (serializers := sample_serializers) sample_db r 3 4
           glass_point [("day", VInt 1); ("collection_point", VInt 4)]
           {[ "day" := VInt 1 ]});
    [reflexivity | reflexivity | reflexivity | reflexivity | lia].
Defined.

Section image_upload.
Context {serializers : Serializers}.

Lemma sequence_is_fresh {A} (m : gmap Z A) (s k : Z) :
  map_Forall (λ k _, (k < s)%Z) m → (s ≤ k)%Z → m !! k = None.
Proof.
  intros Hm Hk. destruct (m !! k) as [x|] eqn:Hx; [|reflexivity].
  apply Hm in Hx. lia.
Qed.

(** A valid upload to an existing point stores one image under the next
    primary key, linked to the point. *)
Lemma upload_to_known_point (db : DB) (r : Request) (pk : Z) (p : CollectionPoint)
    (d : Dict) (f : UploadedFile) :
  IsAuthenticated r = true →
  collection_points db !! pk = Some p →
  data r = Mapping d →
  PointImageUploadSerializer_image db d = Some f →
  let k := seq_point_image db in
  let i := {| pi_collection_point_id := pk; pi_image := f |} in
  handle (UploadImage (Some pk)) r db
  = (set_point_images (<[k := i]> (point_images db)) (k + 1) db,
     {| status_code := 201; payload := Image k i |}).
Proof.
  intros Hauth Hp Hd Hf k i. simpl. rewrite dispatch_allowed by done.
  unfold PointImageUploadView_post, get_object_or_404, request_data, is_valid,
    PointImage_objects_create. view_unfold.
  rewrite Hp, Hd, Hf. simpl. rewrite Hp. reflexivity.
Qed.

(** C10.  For every image upload whose target point does not exist, the
    answer is [NotFound] (404) whatever the body, also when the file is
    missing or malformed: the point is looked up before the upload serializer
    is validated.  No image is created then, nor when the point exists and
    the body is refused. *)
Theorem upload_to_unknown_point (db : DB) (r : Request) (pk : option Z) :
  IsAuthenticated r = true →
  (names_no_point db pk →
     handle (UploadImage pk) r db
     = (db, {| status_code := 404; payload := Error Http404 |})) ∧
  (¬ names_no_point db pk → upload_refused db r →
     ∃ e, handle (UploadImage pk) r db = (db, handle_exception r e) ∧ body_error e).
Proof.
  intros Hauth. split.
  - intros Hno. simpl. rewrite dispatch_allowed by done.
    unfold PointImageUploadView_post, get_object_or_404. view_unfold.
    destruct pk as [pk|]; simpl in Hno; [rewrite Hno|]; reflexivity.
  - intros Hsome Hbad. simpl. rewrite dispatch_allowed by done.
    unfold PointImageUploadView_post, get_object_or_404, request_data, is_valid.
    view_unfold. unfold upload_refused, body_error in *.
    destruct pk as [pk|]; simpl in Hsome; [|tauto].
    destruct (collection_points db !! pk) as [p|]; [|tauto].
    destruct (data r) as [[|]| |d]; try (eexists; split; [reflexivity|tauto]).
    rewrite Hbad. eexists; split; [reflexivity|tauto].
Qed.

(** C7.  The upload is not idempotent: for every existing point, two
    successful uploads in a row create two images with distinct primary
    keys, both linked to the point, whether or not the two files differ. *)
Theorem two_uploads_create_two_images (db : DB) (r1 r2 : Request) (pk : Z)
    (p : CollectionPoint) (d1 d2 : Dict) (f1 f2 : UploadedFile) :
  let k1 := seq_point_image db in
  let k2 := k1 + 1 in
  let i1 := {| pi_collection_point_id := pk; pi_image := f1 |} in
  let i2 := {| pi_collection_point_id := pk; pi_image := f2 |} in
  let db1 := set_point_images (<[k1 := i1]> (point_images db)) k2 db in
  let db2 := set_point_images (<[k2 := i2]> (point_images db1)) (k2 + 1) db1 in
  sequences_ahead db →
  IsAuthenticated r1 = true →
  IsAuthenticated r2 = true →
  collection_points db !! pk = Some p →
  data r1 = Mapping d1 →
  data r2 = Mapping d2 →
  PointImageUploadSerializer_image db d1 = Some f1 →
  PointImageUploadSerializer_image db1 d2 = Some f2 →
  handle (UploadImage (Some pk)) r1 db
  = (db1, {| status_code := 201; payload := Image k1 i1 |}) ∧
  handle (UploadImage (Some pk)) r2 db1
  = (db2, {| status_code := 201; payload := Image k2 i2 |}) ∧
  k1 ≠ k2 ∧
  point_images db !! k1 = None ∧
  point_images db !! k2 = None ∧
  point_images db2 !! k1 = Some i1 ∧
  point_images db2 !! k2 = Some i2 ∧
  size (point_images db2) = S (S (size (point_images db))).
Proof.
  intros k1 k2 i1 i2 db1 db2 (_ & _ & Hseq) Ha1 Ha2 Hp Hd1 Hd2 Hf1 Hf2.
  assert (Hk1 : point_images db !! k1 = None)
    by (apply (sequence_is_fresh _ (seq_point_image db)); [done | unfold k1; lia]).
  assert (Hk2 : point_images db !! k2 = None)
    by (apply (sequence_is_fresh _ (seq_point_image db)); [done | unfold k2, k1; lia]).
  assert (Hne : k1 ≠ k2) by (unfold k2; lia).
  split; [exact (upload_to_known_point db r1 pk p d1 f1 Ha1 Hp Hd1 Hf1)|].
  split; [exact (upload_to_known_point db1 r2 pk p d2 f2 Ha2 Hp Hd2 Hf2)|].
  split; [exact Hne|]. split; [exact Hk1|]. split; [exact Hk2|].
  simpl. split; [|split].
  - rewrite lookup_insert_ne by done. apply lookup_insert_eq.
  - apply lookup_insert_eq.
  - rewrite map_size_insert_None, map_size_insert_None; [reflexivity|done|].
    rewrite lookup_insert_ne by done. done.
Qed.

End image_upload.

Lemma upload_to_unknown_point_witness :
  IsAuthenticated (request_of (Some alice) [] (Mapping [])) = true ∧
  handle (serializers := sample_serializers) (UploadImage (Some 9))
    (request_of (Some alice) [] (Mapping [])) sample_db
  = (sample_db, {| status_code := 404; payload := Error Http404 |}).
Proof.
  split; [reflexivity|].
  apply (upload_to_unknown_point (serializers := sample_serializers) sample_db
           (request_of (Some alice) [] (Mapping [])) (Some 9)); reflexivity.
Defined.

Lemma two_uploads_create_two_images_witness :
  sequences_ahead sample_db ∧
  (handle (serializers := sample_serializers) (UploadImage (Some 3))
     (request_of (Some alice) [] (Mapping [("image", VFile photo)])) sample_db).2
  = {| status_code := 201;
       payload := Image 1 {| pi_collection_point_id := 3; pi_image := photo |} |} ∧
  (handle (serializers := sample_serializers) (UploadImage (Some 3))
     (request_of (Some alice) [] (Mapping [("image", VFile photo)]))
     (handle (serializers := sample_serializers) (UploadImage (Some 3))
        (request_of (Some alice) [] (Mapping [("image", VFile photo)])) sample_db).1).2
  = {| status_code := 201;
       payload := Image 2 {| pi_collection_point_id := 3; pi_image := photo |} |}.
Proof.
  assert (Hseq : sequences_ahead sample_db) by by_computation.
  split; [exact Hseq|].
  destruct (two_uploads_create_two_images (serializers := sample_serializers) sample_db
              (request_of (Some alice) [] (Mapping [("image", VFile photo)]))
              (request_of (Some alice) [] (Mapping [("image", VFile photo)]))
              3 glass_point [("image", VFile photo)] [("image", VFile photo)]
              photo photo Hseq eq_refl eq_refl eq_refl eq_refl eq_refl eq_refl eq_refl)
    as (H1 & H2 & _).
  split.
  - rewrite H1. reflexivity.
  - rewrite H1. cbn [fst]. rewrite H2. reflexivity.
Defined.

(** ** The writes of the API and the invariants *)

Section effects.
Context {serializers : Serializers}.

Lemma handle_effect (c : Call) (r : Request) (db : DB) :
  effect r db c (handle c r db).1.
Proof.
  destruct c; simpl;
    (match goal with
     | |- context [dispatch [?perm] r _ db] =>
         destruct (perm r) eqn:Hperm;
         [rewrite dispatch_allowed by done
         |rewrite dispatch_refused by done; apply effect_none]
     end);
    views_unfold; simpl;
    repeat case_match; simplify_eq/=; try apply effect_none.
  all: try (eapply effect_create_point; eauto; fail).
  all: try (eapply effect_update_point; eauto; fail).
  all: try (eapply effect_moderate_point; eauto; fail).
  all: try (eapply effect_upload_image; eauto; fail).
  all: try (eapply effect_create_hour; simpl; eauto; fail).
  all: try (eapply effect_create_hour_of; simpl; eauto; fail).
Qed.

Lemma effect_sequences_ahead r db c db' :
  effect r db c db' → sequences_ahead db → sequences_ahead db'.
Proof.
  intros He (Hp & Hh & Hi).
  destruct He; unfold sequences_ahead; simpl; repeat split; try done.
  - apply map_Forall_insert_2; [lia|].
    eapply map_Forall_impl; [exact Hp|]. simpl. intros; lia.
  - apply map_Forall_insert_2; [|done]. eapply (Hp k); eauto.
  - apply map_Forall_insert_2; [|done]. eapply (Hp k); eauto.
  - apply map_Forall_insert_2; [lia|].
    eapply map_Forall_impl; [exact Hh|]. simpl. intros; lia.
  - apply map_Forall_insert_2; [lia|].
    eapply map_Forall_impl; [exact Hh|]. simpl. intros; lia.
  - apply map_Forall_insert_2; [lia|].
    eapply map_Forall_impl; [exact Hi|]. simpl. intros; lia.
Qed.

Lemma is_Some_lookup_insert {A} (m : gmap Z A) (k j : Z) (x : A) :
  is_Some (m !! j) → is_Some (<[k := x]> m !! j).
Proof.
  intros Hj. destruct (decide (k = j)) as [->|Hne].
  - rewrite lookup_insert_eq. eauto.
  - rewrite lookup_insert_ne by done. exact Hj.
Qed.

Lemma effect_references_valid r db c db' :
  effect r db c db' → references_valid db → references_valid db'.
Proof.
  intros He (Hh & Hi).
  destruct He; unfold references_valid; simpl; repeat split; try done;
    try (eapply map_Forall_impl; [eassumption|]; simpl; intros;
         apply is_Some_lookup_insert; assumption).
  - apply map_Forall_insert_2; done.
  - apply map_Forall_insert_2; done.
  - apply map_Forall_insert_2; done.
Qed.

(** X5.  Every call keeps the invariants of the database: the primary keys
    come from the sequences, and every operating hour and image refers to a
    stored point. *)
Lemma handle_invariants (c : Call) (r : Request) (db : DB) :
  sequences_ahead db ∧ references_valid db →
  sequences_ahead (handle c r db).1 ∧ references_valid (handle c r db).1.
Proof.
  intros [Hs Hr]. pose proof (handle_effect c r db) as He.
  eauto using effect_sequences_ahead, effect_references_valid.
Qed.

Lemma empty_db_invariants : sequences_ahead empty_db ∧ references_valid empty_db.
Proof. split; by_computation. Qed.

(** A call that leaves a point with other moderation fields than it had is
    the moderation of that point, by an administrator. *)
Lemma effect_moderation r db c db' k p p' :
  effect r db c db' →
  sequences_ahead db →
  collection_points db !! k = Some p →
  collection_points db' !! k = Some p' →
  moderation p' ≠ moderation p →
  c = ModeratePoint k ∧ IsAdminUser r = true.
Proof.
  intros He (Hseq & _) Hp Hp' Hne.
  destruct He; simpl in Hp'; try congruence.
  - rewrite lookup_insert_ne in Hp' by (apply Hseq in Hp; lia). congruence.
  - destruct (decide (k0 = k)) as [->|Hk].
    + rewrite lookup_insert_eq in Hp'. simplify_eq; done.
    + rewrite lookup_insert_ne in Hp' by done. congruence.
  - destruct (decide (k0 = k)) as [->|Hk]; [done|].
    rewrite lookup_insert_ne in Hp' by done. congruence.
Qed.

End effects.

(** ** Creation and moderation of collection points *)

Section moderation.
Context {serializers : Serializers}.

(** C2.  For every create-point request of an authenticated caller, either
    the body is refused and nothing is stored, or the stored point has
    [is_active = false] and [status = 'pending'], whatever the body holds
    for those two fields. *)
Theorem created_point_awaits_moderation (db : DB) (r : Request) (u : User) :
  user r = Some u →
  match data r with
  | Mapping d =>
      match CollectionPointSerializer_fields db false d with
      | Some fields =>
          let k := seq_collection_point db in
          let p := {| cp_user_id := user_pk u; cp_is_active := false;
                      cp_status := "pending"; cp_fields := fields |} in
          handle CreatePoint r db
          = (set_collection_points (<[k := p]> (collection_points db)) (k + 1) db,
             {| status_code := 201; payload := Point k p |})
      | None =>
          handle CreatePoint r db
          = (db, {| status_code := 400; payload := Error ValidationError |})
      end
  | NotMapping =>
      handle CreatePoint r db
      = (db, {| status_code := 400; payload := Error ValidationError |})
  | Unparsed unsupported =>
      handle CreatePoint r db
      = (db, handle_exception r
               (if unsupported then UnsupportedMediaType else ParseError))
  end.
Proof.
  intros Hu. simpl. rewrite dispatch_allowed by eauto using authenticated_user.
  views_unfold. rewrite Hu.
  destruct (data r) as [[|]| |d]; try reflexivity.
  destruct (CollectionPointSerializer_fields db false d); reflexivity.
Qed.

(** Without the staff flag the moderation is refused and nothing is
    written, for an anonymous caller as well. *)
Lemma moderation_refuses_without_staff (db : DB) (r : Request) (pk : Z) :
  IsAdminUser r = false →
  handle (ModeratePoint pk) r db = (db, handle_exception r (refusal r)).
Proof. intros Hstaff. simpl. apply dispatch_refused. exact Hstaff. Qed.

(** An administrator sets the moderation fields the body gives. *)
Lemma moderation_by_staff (db : DB) (r : Request) (pk : Z) (p : CollectionPoint)
    (d : Dict) (vd : option bool * option string) :
  IsAdminUser r = true →
  collection_points db !! pk = Some p →
  data r = Mapping d →
  PointStatusUpdateSerializer_fields db d = Some vd →
  let p' := PointStatusUpdateSerializer_update p vd in
  handle (ModeratePoint pk) r db
  = (set_collection_points (<[pk := p']> (collection_points db))
       (seq_collection_point db) db,
     {| status_code := 200; payload := Point pk p' |}).
Proof.
  intros Hstaff Hp Hd Hvd p'. simpl. rewrite dispatch_allowed by done.
  views_unfold. rewrite Hp, Hd, Hvd. reflexivity.
Qed.

(** C1.  For every collection point and every caller who is a user without
    the staff flag, the moderation endpoint fails with [PermissionDenied]
    (403), the same for an id that exists and one that does not, and leaves
    the database as it is; and a call of the API, by any caller, that changes
    [is_active] or [status] of a stored point is a call of that endpoint by
    an administrator. *)
Theorem moderation_is_admin_only (db : DB) (r : Request) (u : User) (pk : Z) :
  user r = Some u →
  is_staff u = false →
  handle (ModeratePoint pk) r db
  = (db, {| status_code := 403; payload := Error PermissionDenied |}) ∧
  (∀ c r' k p p',
     sequences_ahead db →
     collection_points db !! k = Some p →
     collection_points (handle c r' db).1 !! k = Some p' →
     moderation p' ≠ moderation p →
     c = ModeratePoint k ∧ IsAdminUser r' = true).
Proof.
  intros Hu Hstaff. split.
  - rewrite moderation_refuses_without_staff
      by (unfold IsAdminUser; rewrite Hu; exact Hstaff).
    unfold handle_exception, refusal. rewrite Hu.
    destruct (authenticators r); reflexivity.
  - intros c r' k p p' Hseq Hp Hp' Hne.
    exact (effect_moderation r' db c _ k p p' (handle_effect c r' db) Hseq Hp Hp' Hne).
Qed.

End moderation.

Lemma created_point_awaits_moderation_witness :
  handle (serializers := sample_serializers) CreatePoint
    (request_of (Some alice) []
       (Mapping [("name", VStr "Oil"); ("is_active", VBool true);
                 ("status", VStr "approved")]))
    sample_db
  = (set_collection_points
       (<[5 := {| cp_user_id := 5; cp_is_active := false; cp_status := "pending";
                  cp_fields := {[ "name" := VStr "Oil" ]} |}]>
          (collection_points sample_db)) 6 sample_db,
     {| status_code := 201;
        payload := Point 5 {| cp_user_id := 5; cp_is_active := false;
                              cp_status := "pending";
                              cp_fields := {[ "name" := VStr "Oil" ]} |} |}).
Proof.
  exact (created_point_awaits_moderation (serializers := sample_serializers) sample_db
           (request_of (Some alice) []
              (Mapping [("name", VStr "Oil"); ("is_active", VBool true);
                        ("status", VStr "approved")]))
           alice eq_refl).
Defined.

Lemma moderation_is_admin_only_witness :
  is_staff alice = false ∧
  handle (serializers := sample_serializers) (ModeratePoint 3)
    (request_of (Some alice) []
       (Mapping [("is_active", VBool true); ("status", VStr "approved")]))
    sample_db
  = (sample_db, {| status_code := 403; payload := Error PermissionDenied |}).
Proof.
  split; [reflexivity|].
  apply (moderation_is_admin_only (serializers := sample_serializers) sample_db
           (request_of (Some alice) []
              (Mapping [("is_active", VBool true); ("status", VStr "approved")]))
           alice 3); reflexivity.
Defined.

(** The same request by an administrator approves the point. *)
Example moderation_by_root :
  (handle (serializers := sample_serializers) (ModeratePoint 3)
     (request_of (Some root) []
        (Mapping [("is_active", VBool true); ("status", VStr "approved")]))
     sample_db).2
  = {| status_code := 200;
       payload := Point 3 {| cp_user_id := 5; cp_is_active := true;
                             cp_status := "approved";
                             cp_fields := {[ "name" := VStr "Glass" ]} |} |}.
Proof. vm_compute. reflexivity. Qed.

(** ** The review filter *)

Section reviews.
Context {serializers : Serializers}.

Lemma QueryDict_get_app_other {V} (k k' : string) (v : V) (q : list (string * V)) :
  k ≠ k' → QueryDict_get k (q ++ [(k', v)]) = QueryDict_get k q.
Proof.
  intros Hne. induction q as [|[j w] q IH]; simpl.
  - destruct (String.eqb_spec k k'); [contradiction|reflexivity].
  - rewrite IH. reflexivity.
Qed.

(** With neither [user_id] nor [id] in the query, every review is
    returned. *)
Lemma review_filter_no_parameters (db : DB) (r : Request) :
  IsAuthenticated r = true →
  QueryDict_get "user_id" (query_params r) = None →
  QueryDict_get "id" (query_params r) = None →
  handle FilterReviews r db
  = (db, {| status_code := 200; payload := Reviews (map_to_list (point_reviews db)) |}).
Proof.
  intros Hauth Hu Hi. simpl. rewrite dispatch_allowed by done.
  views_unfold. rewrite Hu, Hi. reflexivity.
Qed.

(** With a numeric [user_id] and no [id], exactly the reviews of that user
    are returned. *)
Lemma review_filter_by_user_id (db : DB) (r : Request) (s : string) (z : Z) :
  IsAuthenticated r = true →
  QueryDict_get "user_id" (query_params r) = Some s →
  py_int s = Some z →
  QueryDict_get "id" (query_params r) = None →
  ∃ l,
    handle FilterReviews r db = (db, {| status_code := 200; payload := Reviews l |}) ∧
    ∀ k v, (k, v) ∈ l ↔ point_reviews db !! k = Some v ∧ pr_user_id v = z.
Proof.
  intros Hauth Hu Hs Hi. simpl. rewrite dispatch_allowed by done.
  views_unfold. rewrite Hu, Hi.
  destruct s as [|a s]; [discriminate|]. simpl. rewrite Hs.
  eexists. split; [reflexivity|]. intros k v.
  rewrite elem_of_map_to_list, map_lookup_filter_Some. reflexivity.
Qed.

(** The parameter [point_id] of the schema is never read: adding it to a
    query changes nothing of the answer. *)
Lemma review_filter_ignores_point_id (db : DB) (r : Request) (v : string) :
  handle FilterReviews (with_query_parameter r "point_id" v) db
  = handle FilterReviews r db.
Proof.
  simpl. unfold dispatch, PointReviewFilteredList_get, respond, handle_exception,
    exception_status, get_authenticate_header, permission_denied.
  simpl. unfold IsAuthenticated, permission_denied. simpl.
  rewrite !QueryDict_get_app_other by discriminate. reflexivity.
Qed.

End reviews.

(** C6, at the input where the code departs from it: the query
    [point_id=3] on a database with a review of point 3 and a review of
    point 4 returns both reviews, the one of point 4 included. *)
Theorem review_filter_point_id_returns_all :
  handle (serializers := sample_serializers) FilterReviews
    (request_of (Some alice) [("point_id", "3")] NotMapping) sample_db
  = (sample_db,
     {| status_code := 200;
        payload := Reviews [(2, review_of 6 4); (1, review_of 5 3)] |}) ∧
  pr_collection_point_id (review_of 6 4) ≠ 3.
Proof. split; [vm_compute; reflexivity | discriminate]. Qed.

(** The parameter the view reads is [id]. *)
Example review_filter_by_id :
  (handle (serializers := sample_serializers) FilterReviews
     (request_of (Some alice) [("id", "3")] NotMapping) sample_db).2
  = {| status_code := 200; payload := Reviews [(1, review_of 5 3)] |}.
Proof. vm_compute. reflexivity. Qed.

(** A [user_id] that is no number is a server error. *)
Example review_filter_by_bad_user_id :
  (handle (serializers := sample_serializers) FilterReviews
     (request_of (Some alice) [("user_id", "abc")] NotMapping) sample_db).2
  = {| status_code := 500; payload := Error ValueError |}.
Proof. vm_compute. reflexivity. Qed.

(** * More properties of the views *)

Section api.
Context {serializers : Serializers}.

(** X1.  A request with no authenticated user is refused by every route,
    with 401 or 403, before the view runs: the database is unchanged. *)
Theorem anonymous_request_is_refused (c : Call) (r : Request) (db : DB) :
  user r = None →
  handle c r db = (db, handle_exception r (refusal r)) ∧
  (status_code (handle c r db).2 = 401 ∨ status_code (handle c r db).2 = 403).
Proof.
  intros Hu.
  assert (Hh : handle c r db = (db, handle_exception r (refusal r))).
  { destruct c; simpl; apply dispatch_refused;
      unfold IsAuthenticated, IsAdminUser; rewrite Hu; reflexivity. }
  split; [exact Hh|]. rewrite Hh.
  unfold refusal, handle_exception, exception_status, get_authenticate_header.
  rewrite Hu. destruct (authenticators r) as [|[|] ?]; simpl; auto.
Qed.

Lemma handle_writes_or_succeeds (c : Call) (r : Request) (db : DB) :
  (handle c r db).1 = db ∨ (status_code (handle c r db).2 < 400)%Z.
Proof.
  destruct c; simpl;
    (match goal with
     | |- context [dispatch [?perm] r _ db] =>
         destruct (perm r) eqn:Hperm;
         [rewrite dispatch_allowed by done
         |rewrite dispatch_refused by done; left; reflexivity]
     end);
    views_unfold; simpl;
    repeat case_match; simplify_eq/=; first [left; reflexivity | right; reflexivity].
Qed.

(** X2.  No route writes and then fails: an answer with a status of 400 or
    more leaves the database as it was. *)
Theorem error_answer_writes_nothing (c : Call) (r : Request) (db : DB) :
  (400 ≤ status_code (handle c r db).2)%Z → (handle c r db).1 = db.
Proof. intros Hs. destruct (handle_writes_or_succeeds c r db); [done|lia]. Qed.

(** X3.  The listing, retrieving and filtering routes never write, whatever
    the request. *)
Theorem read_routes_write_nothing (c : Call) (r : Request) (db : DB) :
  reads c = true → (handle c r db).1 = db.
Proof.
  intros Hc. pose proof (handle_effect c r db) as He.
  destruct He; try reflexivity; discriminate.
Qed.

(** X4.  An answer shows the database as the call leaves it: the row of a
    created, updated or retrieved object is stored under the key of the
    answer, and every row of a listing is a stored row. *)
Theorem answer_shows_stored_rows (c : Call) (r : Request) (db : DB) :
  let db' := (handle c r db).1 in
  match payload (handle c r db).2 with
  | Point k p => collection_points db' !! k = Some p
  | Hour k h => operating_hours db' !! k = Some h
  | Image k i => point_images db' !! k = Some i
  | Points l => ∀ k p, (k, p) ∈ l → collection_points db' !! k = Some p
  | Hours l => ∀ k h, (k, h) ∈ l → operating_hours db' !! k = Some h
  | Reviews l => ∀ k v, (k, v) ∈ l → point_reviews db' !! k = Some v
  | Error _ => True
  end.
Proof.
  destruct c; simpl;
    (match goal with
     | |- context [dispatch [?perm] r _ db] =>
         destruct (perm r) eqn:Hperm;
         [rewrite dispatch_allowed by done
         |rewrite dispatch_refused by done; exact I]
     end);
    views_unfold; simpl;
    repeat case_match; simplify_eq/=; try done;
    try (apply lookup_insert_eq);
    intros ? ?; rewrite elem_of_map_to_list, ?map_lookup_filter_Some, ?lookup_empty;
    intuition congruence.
Qed.

(** X6.  The listing of [CollectionPointList] returns every stored point,
    whatever its state and owner, and the active, inactive and own listings
    are parts of it. *)
Theorem all_points_listing (db : DB) (r : Request) :
  IsAuthenticated r = true →
  ∃ l,
    handle ListPoints r db = (db, {| status_code := 200; payload := Points l |}) ∧
    (∀ k p, (k, p) ∈ l ↔ collection_points db !! k = Some p) ∧
    (∀ c l', c = ListActive ∨ c = ListInactive ∨ c = ListMine →
       payload (handle c r db).2 = Points l' → l' ⊆ l).
Proof.
  intros Hauth. eexists. split; [|split].
  - simpl. rewrite dispatch_allowed by done. reflexivity.
  - intros k p. apply elem_of_map_to_list.
  - intros c l' Hc. destruct Hc as [->|[->| ->]]; simpl;
      rewrite dispatch_allowed by done; views_unfold.
    + intros [= <-] [k p]. rewrite !elem_of_map_to_list, map_lookup_filter_Some. tauto.
    + intros [= <-] [k p]. rewrite !elem_of_map_to_list, map_lookup_filter_Some. tauto.
    + destruct (user r); [|discriminate].
      intros [= <-] [k p]. rewrite !elem_of_map_to_list, map_lookup_filter_Some. tauto.
Qed.

(** X7.  A point that is inactive with a status other than ['pending'] (a
    rejected point) is in neither the active nor the inactive listing; it is
    in the listing of all points. *)
Theorem inactive_point_that_is_not_pending (db : DB) (r : Request) (k : Z)
    (p : CollectionPoint) :
  IsAuthenticated r = true →
  collection_points db !! k = Some p →
  cp_is_active p = false →
  cp_status p ≠ "pending" →
  ∀ c l, payload (handle c r db).2 = Points l →
    (c = ListPoints → (k, p) ∈ l) ∧
    (c = ListActive ∨ c = ListInactive → (k, p) ∉ l).
Proof.
  intros Hauth Hk Hact Hst c l Hl. split.
  - intros ->. simpl in Hl. rewrite dispatch_allowed in Hl by done.
    views_unfold. simpl in Hl. injection Hl as <-. apply elem_of_map_to_list. exact Hk.
  - intros [-> | ->]; simpl in Hl; rewrite dispatch_allowed in Hl by done;
      views_unfold; simpl in Hl; injection Hl as <-;
      intros Hin; apply elem_of_map_to_list, map_lookup_filter_Some in Hin;
      simpl in Hin.
    + destruct Hin as [_ Ha]. congruence.
    + destruct Hin as [_ [_ Hs]]. exact (Hst Hs).
Qed.

(** X8.  Retrieving a point answers 200 with the stored row for any
    authenticated caller, whoever owns the point and whatever its state, and
    404 when the id names no point. *)
Theorem retrieve_point (db : DB) (r : Request) (pk : Z) :
  IsAuthenticated r = true →
  handle (RetrievePoint pk) r db
  = (db, match collection_points db !! pk with
         | Some p => {| status_code := 200; payload := Point pk p |}
         | None => {| status_code := 404; payload := Error Http404 |}
         end).
Proof.
  intros Hauth. simpl. rewrite dispatch_allowed by done. views_unfold.
  destruct (collection_points db !! pk); reflexivity.
Qed.

(** X9.  Updating or moderating an id that names no point answers 404
    whatever the body, and writes nothing: the point is looked up before the
    body is read. *)
Theorem unknown_point_is_not_found (db : DB) (r : Request) (pk : Z) :
  collection_points db !! pk = None →
  (IsAuthenticated r = true →
   ∀ partial, handle (UpdatePoint partial pk) r db
              = (db, {| status_code := 404; payload := Error Http404 |})) ∧
  (IsAdminUser r = true →
   handle (ModeratePoint pk) r db
   = (db, {| status_code := 404; payload := Error Http404 |})).
Proof.
  intros Hpk. split.
  - intros Hauth partial. simpl. rewrite dispatch_allowed by done.
    views_unfold. rewrite Hpk. reflexivity.
  - intros Hstaff. simpl. rewrite dispatch_allowed by done.
    views_unfold. rewrite Hpk. reflexivity.
Qed.

(** X11.  After an operating hour is created for a point P, the listing of
    the hours of P holds the new hour besides the hours it held before, and
    the listing of any other point is what it was. *)
Theorem hour_create_then_list (db : DB) (r r' : Request) (P : Z) (p : CollectionPoint)
    (d : Dict) (vd : option Z * Fields) :
  sequences_ahead db →
  IsAuthenticated r = true →
  IsAuthenticated r' = true →
  collection_points db !! P = Some p →
  data r = Mapping d →
  OperatingHourSerializer_fields db d = Some vd →
  let k := seq_operating_hour db in
  let h := {| oh_collection_point_id := P; oh_fields := vd.2 |} in
  let db' := (handle (CreateHourOf (Some P)) r db).1 in
  ∃ before after,
    handle (ListHoursOf (Some P)) r' db
    = (db, {| status_code := 200; payload := Hours before |}) ∧
    handle (ListHoursOf (Some P)) r' db'
    = (db', {| status_code := 200; payload := Hours after |}) ∧
    ((k, h) ∉ before) ∧
    (∀ x, x ∈ after ↔ x = (k, h) ∨ x ∈ before) ∧
    (∀ Q, Q ≠ P →
       (handle (ListHoursOf (Some Q)) r' db').2 = (handle (ListHoursOf (Some Q)) r' db).2).
Proof.
  intros (_ & Hseq & _) Hauth Hauth' HP Hd Hvd. cbv zeta.
  assert (Hk : operating_hours db !! seq_operating_hour db = None)
    by (apply (sequence_is_fresh _ (seq_operating_hour db)); [done | apply Z.le_refl]).
  assert (Hcreate : (handle (CreateHourOf (Some P)) r db).1
    = set_operating_hours
        (<[seq_operating_hour db := {| oh_collection_point_id := P; oh_fields := vd.2 |}]>
           (operating_hours db)) (seq_operating_hour db + 1) db).
  { simpl. rewrite dispatch_allowed by done.
    unfold OperatingHourDetail_create, request_data, is_valid. view_unfold.
    rewrite Hd, Hvd, (perform_create_known_point db P p) by done. reflexivity. }
  rewrite Hcreate. eexists _, _.
  split; [simpl; rewrite dispatch_allowed by done; reflexivity|].
  split; [simpl; rewrite dispatch_allowed by done; reflexivity|].
  simpl. split; [|split].
  - intros Hin. apply elem_of_map_to_list, map_lookup_filter_Some in Hin as [? _].
    congruence.
  - intros [j x]. rewrite !elem_of_map_to_list, !map_lookup_filter_Some. simpl.
    destruct (decide (seq_operating_hour db = j)) as [<-|Hne].
    + rewrite lookup_insert_eq. split.
      * intros [[= <-] _]. left. reflexivity.
      * intros [[= ->]|[? _]]; [split; reflexivity|congruence].
    + rewrite lookup_insert_ne by done. split; [tauto|].
      intros [[= ? ?]|?]; [congruence|tauto].
  - intros Q HQ. rewrite !dispatch_allowed by done. views_unfold. simpl.
    rewrite map_filter_insert_not'; [reflexivity | simpl; congruence |].
    intros y Hy. congruence.
Qed.




End api.

Lemma anonymous_request_is_refused_witness :
  handle (serializers := sample_serializers) (ModeratePoint 3)
    (request_of None [] (Mapping [("is_active", VBool true)])) sample_db
  = (sample_db, {| status_code := 401; payload := Error NotAuthenticated |}).
Proof.
  exact (proj1 (anonymous_request_is_refused (serializers := sample_serializers)
                  (ModeratePoint 3)
                  (request_of None [] (Mapping [("is_active", VBool true)]))
                  sample_db eq_refl)).
Defined.

Lemma error_answer_writes_nothing_witness :
  status_code (handle (serializers := sample_serializers) (UploadImage (Some 3))
                 (request_of (Some alice) [] (Mapping [])) sample_db).2 = 400 ∧
  (handle (serializers := sample_serializers) (UploadImage (Some 3))
     (request_of (Some alice) [] (Mapping [])) sample_db).1 = sample_db.
Proof.
  split; [reflexivity|].
  apply (error_answer_writes_nothing (serializers := sample_serializers)
           (UploadImage (Some 3)) (request_of (Some alice) [] (Mapping [])) sample_db).
  vm_compute. discriminate.
Defined.

Lemma read_routes_write_nothing_witness :
  (handle (serializers := sample_serializers) FilterReviews
     (request_of (Some alice) [("user_id", "abc")] NotMapping) sample_db).1 = sample_db.
Proof.
  apply (read_routes_write_nothing (serializers := sample_serializers) FilterReviews
           (request_of (Some alice) [("user_id", "abc")] NotMapping) sample_db).
  reflexivity.
Defined.

Lemma handle_invariants_witness :
  sequences_ahead
    (handle (serializers := sample_serializers) CreatePoint
       (request_of (Some alice) [] (Mapping [("name", VStr "Oil")])) sample_db).1 ∧
  references_valid
    (handle (serializers := sample_serializers) CreatePoint
       (request_of (Some alice) [] (Mapping [("name", VStr "Oil")])) sample_db).1.
Proof.
  apply (handle_invariants (serializers := sample_serializers) CreatePoint
           (request_of (Some alice) [] (Mapping [("name", VStr "Oil")])) sample_db).
  split; by_computation.
Defined.

Lemma all_points_listing_witness :
  ∃ l,
    handle (serializers := sample_serializers) ListPoints
      (request_of (Some alice) [] NotMapping) moderated_db
    = (moderated_db, {| status_code := 200; payload := Points l |}) ∧
    (∀ k p, (k, p) ∈ l ↔ collection_points moderated_db !! k = Some p).
Proof.
  destruct (all_points_listing (serializers := sample_serializers) moderated_db
              (request_of (Some alice) [] NotMapping) eq_refl) as (l & Hl & Hin & _).
  exists l. split; [exact Hl | exact Hin].
Defined.

Lemma inactive_point_that_is_not_pending_witness :
  collection_points moderated_db !! 7 = Some rejected_point ∧
  payload (handle (serializers := sample_serializers) ListInactive
             (request_of (Some alice) [] NotMapping) moderated_db).2
  = Points [(3, glass_point)] ∧
  (7, rejected_point) ∉ [(3, glass_point)].
Proof.
  split; [reflexivity|]. split; [vm_compute; reflexivity|].
  apply (inactive_point_that_is_not_pending (serializers := sample_serializers)
           moderated_db (request_of (Some alice) [] NotMapping) 7 rejected_point
           eq_refl eq_refl eq_refl ltac:(discriminate) ListInactive [(3, glass_point)]
           ltac:(vm_compute; reflexivity)).
  right. reflexivity.
Defined.

Lemma retrieve_point_witness :
  handle (serializers := sample_serializers) (RetrievePoint 3)
    (request_of (Some root) [] NotMapping) sample_db
  = (sample_db, {| status_code := 200; payload := Point 3 glass_point |}).
Proof.
  exact (retrieve_point (serializers := sample_serializers) sample_db
           (request_of (Some root) [] NotMapping) 3 eq_refl).
Defined.

Lemma unknown_point_is_not_found_witness :
  handle (serializers := sample_serializers) (ModeratePoint 9)
    (request_of (Some root) [] NotMapping) sample_db
  = (sample_db, {| status_code := 404; payload := Error Http404 |}).
Proof.
  apply (unknown_point_is_not_found (serializers := sample_serializers) sample_db
           (request_of (Some root) [] NotMapping) 9); reflexivity.
Defined.

Lemma hours_listing_never_fails_witness :
  ∃ l,
    handle (serializers := sample_serializers) (ListHoursOf (Some 3))
      (request_of (Some alice) [] NotMapping) sample_db
    = (sample_db, {| status_code := 200; payload := Hours l |}) ∧
    ∀ k h, (k, h) ∈ l ↔
      operating_hours sample_db !! k = Some h ∧ Some 3 = Some (oh_collection_point_id h).
Proof.
  exact (hours_listing_never_fails (serializers := sample_serializers) sample_db
           (request_of (Some alice) [] NotMapping) (Some 3) eq_refl).
Defined.

Lemma hour_create_then_list_witness :
  ∃ before after,
    (handle (serializers := sample_serializers) (ListHoursOf (Some 3))
       (request_of (Some alice) [] NotMapping) sample_db).2
    = {| status_code := 200; payload := Hours before |} ∧
    (handle (serializers := sample_serializers) (ListHoursOf (Some 3))
       (request_of (Some alice) [] NotMapping)
       (handle (serializers := sample_serializers) (CreateHourOf (Some 3))
          (request_of (Some alice) [] (Mapping [("day", VInt 2)])) sample_db).1).2
    = {| status_code := 200; payload := Hours after |} ∧
    ∀ x, x ∈ after ↔
      x = (2, {| oh_collection_point_id := 3; oh_fields := {[ "day" := VInt 2 ]} |}) ∨
      x ∈ before.
Proof.
  assert (Hseq : sequences_ahead sample_db) by by_computation.
  destruct (hour_create_then_list (serializers := sample_serializers) sample_db
              (request_of (Some alice) [] (Mapping [("day", VInt 2)]))
              (request_of (Some alice) [] NotMapping) 3 glass_point
              [("day", VInt 2)] (None, {[ "day" := VInt 2 ]})
              Hseq eq_refl eq_refl eq_refl eq_refl eq_refl)
    as (before & after & Hb & Ha & _ & Hin & _).
  exists before, after. split; [rewrite Hb; reflexivity|].
  split; [rewrite Ha; reflexivity | exact Hin].
Defined.

Lemma hour_create_links_to_body_point_witness :
  handle (serializers := sample_serializers) CreateHour
    (request_of (Some alice) []
       (Mapping [("day", VInt 1); ("collection_point", VInt 4)])) sample_db
  = (set_operating_hours
       (<[2 := {| oh_collection_point_id := 4; oh_fields := {[ "day" := VInt 1 ]} |}]>
          (operating_hours sample_db)) (2 + 1) sample_db,
     {| status_code := 201;
        payload := Hour 2 {| oh_collection_point_id := 4;
                             oh_fields := {[ "day" := VInt 1 ]} |} |}).
Proof.
  exact (hour_create_links_to_body_point (serializers := sample_serializers) sample_db
           (request_of (Some alice) []
              (Mapping [("day", VInt 1); ("collection_point", VInt 4)]))
           4 paper_point [("day", VInt 1); ("collection_point", VInt 4)]
           {[ "day" := VInt 1 ]} eq_refl eq_refl eq_refl eq_refl).
Defined.




(** * Properties of the user manager *)

(** X16.  [create_user] and [create_superuser] raise [ValueError] for an
    email that is [None] or empty, whatever the other arguments, and store
    nothing. *)
Theorem create_user_requires_email (mail : option string) (first_name last_name : string)
    (raw : option string) (extra_fields : ExtraFields) (db : Accounts) :
  truthy mail = false →
  UserManager_create_user mail first_name last_name raw extra_fields db
  = (db, inl ValueError) ∧
  UserManager_create_superuser mail first_name last_name raw extra_fields db
  = (db, inl ValueError).
Proof.
  intros Hemail. unfold UserManager_create_superuser, UserManager_create_user.
  rewrite Hemail. split; reflexivity.
Qed.

(** What the two managers do with an email that is given. *)
Lemma create_user_with_email (mail : option string) (first_name last_name : string)
    (raw : option string) (extra_fields : ExtraFields) (db : Accounts) :
  truthy mail = true →
  let address := normalize_email (default EmptyString mail) in
  let user :=
    {| account_user :=
         {| user_pk := seq_user db; email := address; first_name := first_name;
            last_name := last_name;
            is_active := default true (extra_is_active extra_fields);
            is_staff := default false (extra_is_staff extra_fields) |};
       is_superuser := default false (extra_is_superuser extra_fields);
       password := set_password raw |} in
  UserManager_create_user mail first_name last_name raw extra_fields db
  = if bool_decide (map_Exists (λ _ a, email (account_user a) = address) (users db))
    then (db, inl IntegrityError)
    else ({| users := <[seq_user db := user]> (users db); seq_user := seq_user db + 1 |},
          inr (seq_user db, user)).
Proof.
  intros Hemail. unfold UserManager_create_user, User_save. rewrite Hemail. reflexivity.
Qed.

(** X17.  A user that [create_superuser] returns has [is_staff] and
    [is_superuser] set unless the caller gave them ([setdefault] keeps a
    given value, [False] too); a user that [create_user] returns has them
    unset unless given.  Either is active unless told otherwise, has the
    password that was given (or an unusable one), and is stored under its
    primary key. *)
Theorem created_user_flags (superuser : bool) (mail : option string)
    (first_name last_name : string) (raw : option string)
    (extra_fields : ExtraFields) (db db' : Accounts) (k : Z) (a : Account) :
  (if superuser
   then UserManager_create_superuser mail first_name last_name raw extra_fields db
   else UserManager_create_user mail first_name last_name raw extra_fields db)
  = (db', inr (k, a)) →
  is_staff (account_user a) = default superuser (extra_is_staff extra_fields) ∧
  is_superuser a = default superuser (extra_is_superuser extra_fields) ∧
  is_active (account_user a) = default true (extra_is_active extra_fields) ∧
  password a = set_password raw ∧
  users db' !! k = Some a ∧
  user_pk (account_user a) = k.
Proof.
  intros Hcreate.
  destruct (truthy mail) eqn:Hemail.
  - destruct superuser; unfold UserManager_create_superuser in Hcreate;
      rewrite create_user_with_email in Hcreate by done;
      case_bool_decide; simplify_eq/=;
      rewrite lookup_insert_eq;
      destruct extra_fields as [[|] [|] [|]]; done.
  - destruct (create_user_requires_email mail first_name last_name raw
                extra_fields db Hemail) as [Hu Hs].
    destruct superuser; congruence.
Qed.


(** X19.  Both managers keep the table of users consistent (keys from the
    sequence, no two users with one email) and never change or remove a user
    that is stored, whether they succeed or fail. *)
Theorem create_user_keeps_accounts (superuser : bool) (mail : option string)
    (first_name last_name : string) (raw : option string)
    (extra_fields : ExtraFields) (db : Accounts) :
  accounts_consistent db →
  let db' :=
    (if superuser
     then UserManager_create_superuser mail first_name last_name raw extra_fields db
     else UserManager_create_user mail first_name last_name raw extra_fields db).1 in
  accounts_consistent db' ∧
  ∀ j a, users db !! j = Some a → users db' !! j = Some a.
Proof.
  intros [Hseq Huniq].
  assert (Hgen : ∀ extra,
    let db' := (UserManager_create_user mail first_name last_name raw extra db).1 in
    accounts_consistent db' ∧ ∀ j a, users db !! j = Some a → users db' !! j = Some a);
    [|destruct superuser; apply Hgen].
  intros extra. destruct (truthy mail) eqn:Hmail.
  - rewrite create_user_with_email by done. cbv zeta.
    case_bool_decide as Hex; simpl; [split; [split|]; done|].
    assert (Hfresh : ∀ j a, users db !! j = Some a → j ≠ seq_user db)
      by (intros j a Hj; apply Hseq in Hj; simpl in Hj; lia).
    split; [split|].
    + apply map_Forall_insert_2; [simpl; lia|].
      eapply map_Forall_impl; [exact Hseq|]. simpl. intros; lia.
    + intros j1 j2 a1 a2 H1 H2 Hsame. simpl in H1, H2.
      destruct (decide (j1 = seq_user db)) as [->|Hn1],
        (decide (j2 = seq_user db)) as [->|Hn2]; [reflexivity|..].
      * rewrite lookup_insert_eq in H1. rewrite lookup_insert_ne in H2 by done.
        exfalso. apply Hex. exists j2, a2. split; [done|]. simplify_eq/=. done.
      * rewrite lookup_insert_eq in H2. rewrite lookup_insert_ne in H1 by done.
        exfalso. apply Hex. exists j1, a1. split; [done|]. simplify_eq/=. done.
      * rewrite lookup_insert_ne in H1, H2 by done. eauto.
    + intros j a Hj. rewrite lookup_insert_ne by (intros <-; exact (Hfresh _ _ Hj eq_refl)).
      exact Hj.
  - unfold UserManager_create_user. rewrite Hmail. simpl. split; [split|]; done.
Qed.

Section accounts_and_views.
Context {serializers : Serializers}.

(** X20.  Whether the moderation endpoint lets a created user in is decided
    by [is_staff] alone: a user of [create_superuser] is let in unless it
    was created with [is_staff=False], a user of [create_user] is refused
    with [PermissionDenied] unless it was created with [is_staff=True]; the
    superuser flag plays no part. *)
Theorem created_user_and_moderation (superuser : bool) (mail : option string)
    (first_name last_name : string) (raw : option string)
    (extra_fields : ExtraFields) (accounts accounts' : Accounts) (k : Z) (a : Account)
    (r : Request) (db : DB) (pk : Z) :
  (if superuser
   then UserManager_create_superuser mail first_name last_name raw extra_fields accounts
   else UserManager_create_user mail first_name last_name raw extra_fields accounts)
  = (accounts', inr (k, a)) →
  user r = Some (account_user a) →
  IsAdminUser r = default superuser (extra_is_staff extra_fields) ∧
  (payload (handle (ModeratePoint pk) r db).2 = Error PermissionDenied
   ↔ default superuser (extra_is_staff extra_fields) = false).
Proof.
  intros Hcreate Hr.
  assert (Hstaff : IsAdminUser r = default superuser (extra_is_staff extra_fields)).
  { unfold IsAdminUser. rewrite Hr.
    destruct (truthy mail) eqn:Hmail.
    - destruct superuser; unfold UserManager_create_superuser in Hcreate;
        rewrite create_user_with_email in Hcreate by done;
        case_bool_decide; simplify_eq/=;
        destruct (extra_is_staff extra_fields); reflexivity.
    - destruct (create_user_requires_email mail first_name last_name raw
                  extra_fields accounts Hmail) as [Hu Hs].
      destruct superuser; congruence. }
  split; [exact Hstaff|]. rewrite <- Hstaff. simpl.
  destruct (IsAdminUser r) eqn:Hadmin.
  - rewrite dispatch_allowed by done. views_unfold.
    split; [|discriminate].
    repeat case_match; simplify_eq/=; discriminate.
  - rewrite dispatch_refused by done. unfold refusal. rewrite Hr.
    split; [reflexivity|]. intros _. destruct (authenticators r); reflexivity.
Qed.

End accounts_and_views.

Lemma create_user_requires_email_witness :
  UserManager_create_superuser (Some EmptyString) "Bob" "B" (Some "pw")
    no_extra_fields bob_accounts
  = (bob_accounts, inl ValueError).
Proof.
  exact (proj2 (create_user_requires_email (Some EmptyString) "Bob" "B" (Some "pw")
                  no_extra_fields bob_accounts eq_refl)).
Defined.

Lemma created_user_flags_witness :
  UserManager_create_user (Some "Bob@Example.ORG") "Bob" "B" (Some "pw")
    no_extra_fields no_accounts
  = (bob_accounts, inr (1, bob)) ∧
  is_staff (account_user bob) = false ∧
  users bob_accounts !! 1 = Some bob.
Proof.
  split; [vm_compute; reflexivity|].
  destruct (created_user_flags false (Some "Bob@Example.ORG") "Bob" "B" (Some "pw")
              no_extra_fields no_accounts bob_accounts 1 bob
              ltac:(vm_compute; reflexivity))
    as (Hstaff & _ & _ & _ & Hstored & _).
  split; [exact Hstaff | exact Hstored].
Defined.


Lemma no_accounts_consistent : accounts_consistent no_accounts.
Proof.
  split; [apply map_Forall_empty|].
  intros j1 j2 a1 a2 H1. simpl in H1. rewrite lookup_empty in H1. discriminate.
Qed.

Lemma create_user_keeps_accounts_witness : accounts_consistent bob_accounts.
Proof.
  exact (proj1 (create_user_keeps_accounts false (Some "Bob@Example.ORG") "Bob" "B"
                  (Some "pw") no_extra_fields no_accounts no_accounts_consistent)).
Defined.

Lemma created_user_and_moderation_witness :
  IsAdminUser (request_of (Some (account_user bob)) [] NotMapping) = false ∧
  payload (handle (serializers := sample_serializers) (ModeratePoint 3)
             (request_of (Some (account_user bob)) [] NotMapping) sample_db).2
  = Error PermissionDenied.
Proof.
  destruct (created_user_and_moderation (serializers := sample_serializers) false
              (Some "Bob@Example.ORG") "Bob" "B" (Some "pw") no_extra_fields
              no_accounts bob_accounts 1 bob
              (request_of (Some (account_user bob)) [] NotMapping) sample_db 3
              ltac:(vm_compute; reflexivity) eq_refl)
    as [Hadmin Hrefused].
  split; [exact Hadmin|]. apply Hrefused. reflexivity.
Defined.
